(** * Soft-delete repository layer
    (src/repositories/default-transaction-soft-crud.repository.base.ts)

    A shallow embedding of [DefaultTransactionSoftCrudRepository]: the
    class that overrides the CRUD operations of LoopBack's
    [DefaultTransactionalRepository] so that deletions become tombstone
    updates and reads skip tombstoned rows.

    Layout:
    - JavaScript values, entities, filters, the options bag;
    - the effect monad (caller heap, database, clock, request context);
    - the superclass as an interface ([CrudStore]);
    - the predicate rewriter of [./repo-utils];
    - the class ([Base.Repository], whose identity accessor may reject)
      and its methods, in source order ([SoftCrud]);
    - an in-memory table implementing [CrudStore], with the inherited
      [updateById] and [update] dispatching to the overridden [updateAll];
    - the properties. *)

From stdpp Require Import gmap strings list fin_maps pretty.

Set Default Proof Using "Type".
Open Scope string_scope.

(** ** JavaScript values *)

(** The values stored in entity properties.  Numbers are the
    integer-valued ones; a [Date] is its epoch time in milliseconds. *)
Inductive JsVal : Type :=
  | VUndefined
  | VNull
  | VBool (b : bool)
  | VNum (n : Z)
  | VStr (s : string)
  | VDate (ms : Z).

#[global] Instance JsVal_eq_dec : EqDecision JsVal.
Proof. solve_decision. Defined.

(** An entity instance or a [DataObject<T>] patch: a JavaScript object,
    i.e. a finite map from property names to values.  A property holding
    [undefined] is a key bound to [VUndefined].  A [SoftDeleteEntity]
    ([../models]) is an entity with the properties [deleted], [deletedOn]
    and [deletedBy]; the class assumes nothing else about [T]. *)
Abbreviation Entity := (gmap string JsVal).
Abbreviation DataObject := (gmap string JsVal).

(** [Entity.getId()]: the value of the identifying property. *)
Definition getId (e : Entity) : JsVal := default VUndefined (e !! "id").

(** ** Where clauses and filters ([Where<T>], [Filter<T>]) *)

(** [WEq k v] is the condition [{k: v}]; [WOp k p] stands for a condition
    on [k] built with an operator ([gt], [inq], [like], ...), kept as the
    test it performs on the property; [WAnd] and [WOr] are the [and] and
    [or] clauses.  The empty condition [{}] is [WAnd []]. *)
#[warnings="-register-all"]
Inductive Where : Type :=
  | WEq (k : string) (v : JsVal)
  | WOp (k : string) (p : option JsVal → bool)
  | WAnd (ws : list Where)
  | WOr (ws : list Where).

(** The components of [Filter<T>] that select rows: the [where] clause
    and the [skip]/[limit] window.  [rest] carries the components that
    shape the result without selecting ([fields], [order], [include]). *)
Record Filter : Type := mkFilter {
  where_ : option Where;
  skip : option nat;
  limit : option nat;
  rest : gmap string JsVal;
}.

Record Count : Type := mkCount { count : nat }.

(** ** Users and the options bag *)

(** The integers every one of which is a JavaScript number: those below
    [2^53] in magnitude. *)
Definition safeInteger (n : Z) : bool := (Z.abs n <? 2 ^ 53)%Z.

(** The [id?: number | string] property of [IAuthUser], together with
    the two nullish values JavaScript may put there.  A number is a safe
    integer ([IdNum], which covers [0] and [-0]), or [NaN], or any other
    number (a fraction, an integer from [2^53] on, an infinity): of the
    last kind only the numeral that [Number.prototype.toString] prints is
    kept, since that is all this class does with it. *)
Inductive JsId : Type :=
  | IdUndefined
  | IdNull
  | IdNum (n : Z) (safe : Is_true (safeInteger n))
  | IdNaN
  | IdFloat (numeral : string)
  | IdStr (s : string).

Record IAuthUser : Type := mkUser {
  id : JsId;
  username : string;
}.

(** [Options]: an untyped dictionary; [currentUser] is the one entry this
    class reads, [extras] stands for everything else. *)
Record Options : Type := mkOptions {
  currentUser : option IAuthUser;
  extras : gmap string JsVal;
}.

(** JavaScript truthiness of an id: [undefined], [null], [0], [NaN] and
    the empty string are falsy; every other number is truthy. *)
Definition truthy (i : JsId) : bool :=
  match i with
  | IdUndefined | IdNull | IdNaN => false
  | IdNum n _ => negb (n =? 0)%Z
  | IdFloat _ => true
  | IdStr s => negb (String.eqb s "")
  end.

(** [id.toString()].  On a safe integer it is the decimal numeral, with
    a minus sign when negative (the exponent form only starts at
    [1e21]); on a string it is the string; on [undefined] or [null] the
    call is a TypeError, rendered as [None]. *)
Definition toString (i : JsId) : option string :=
  match i with
  | IdUndefined | IdNull => None
  | IdNum n _ => Some (pretty n)
  | IdNaN => Some "NaN"
  | IdFloat numeral => Some numeral
  | IdStr s => Some s
  end.

(** ** Errors *)

(** Modelled from the spec: [ErrorKeys] is imported from [../error-keys],
    which is not among the sources.  Section 7 names the one key this
    class raises. *)
Inductive ErrorKeys : Type := EntityNotFound.

Inductive Error : Type :=
  | HttpNotFound (key : ErrorKeys)      (* new HttpErrors.NotFound(key) *)
  | StoreError (msg : string) (about : JsVal)  (* raised by the superclass *)
  | Rejected (reason : string)          (* what an injected getter rejects with *)
  | TypeError.

(** ** The effect monad *)

Abbreviation loc := positive.

(** What a method can observe and change: the objects the caller holds
    ([heap], so that an entity passed by reference is shared), the
    database behind the superclass, the wall clock, and the request
    context the identity accessor is bound in. *)
Record World (DB Ctx : Type) : Type := mkWorld {
  heap : gmap loc Entity;
  db : DB;
  now : Z;
  ctx : Ctx;
}.
Arguments mkWorld {DB Ctx} _ _ _ _.
Arguments heap {DB Ctx} _.
Arguments db {DB Ctx} _.
Arguments now {DB Ctx} _.
Arguments ctx {DB Ctx} _.

Inductive Outcome (A : Type) : Type :=
  | Ok (a : A)
  | Throw (e : Error).
Arguments Ok {A} _.
Arguments Throw {A} _.

(** A promise-returning method: it ends with a value or a rejection and
    leaves a world behind either way (a rejection undoes nothing). *)
Definition M (DB Ctx A : Type) : Type := World DB Ctx → Outcome A * World DB Ctx.

(** A call into the superclass touches the database only. *)
Definition St (DB A : Type) : Type := DB → Outcome A * DB.

Section Monad.
Context {DB Ctx : Type}.

Definition ret {A} (a : A) : M DB Ctx A := λ w, (Ok a, w).

Definition throw {A} (e : Error) : M DB Ctx A := λ w, (Throw e, w).

Definition bind {A B} (m : M DB Ctx A) (k : A → M DB Ctx B) : M DB Ctx B :=
  λ w, match m w with
       | (Ok a, w') => k a w'
       | (Throw e, w') => (Throw e, w')
       end.

(** [await super.op(...)] *)
Definition super {A} (op : St DB A) : M DB Ctx A :=
  λ w, let '(r, d) := op (db w) in (r, mkWorld (heap w) d (now w) (ctx w)).

(** [new Date()] *)
Definition newDate : M DB Ctx JsVal := λ w, (Ok (VDate (now w)), w).

(** [await getter()], for a getter bound in the request context: its
    promise resolves with a value or rejects. *)
Definition await {A} (getter : Ctx → Outcome A) : M DB Ctx A :=
  λ w, (getter (ctx w), w).

(** Dereferencing an entity; a reference to nothing is what JavaScript
    reports as a TypeError on property access. *)
Definition deref (l : loc) : M DB Ctx Entity :=
  λ w, match heap w !! l with
       | Some e => (Ok e, w)
       | None => (Throw TypeError, w)
       end.

(** [entity.k = v] *)
Definition assign (l : loc) (k : string) (v : JsVal) : M DB Ctx unit :=
  λ w, match heap w !! l with
       | Some e => (Ok (), mkWorld (<[l := <[k := v]> e]> (heap w)) (db w) (now w) (ctx w))
       | None => (Throw TypeError, w)
       end.
End Monad.

Notation "x <- m ;; k" := (bind m (λ x, k))
  (at level 100, m at next level, right associativity).
Notation "m ;;; k" := (bind m (λ _, k))
  (at level 100, right associativity).

(** ** The superclass

    [DefaultTransactionalRepository<T, ID, Relations>] comes from
    [@loopback/repository]; the class under study reaches it only through
    [super.op(...)].  It is kept as an interface, one member per operation
    the class calls. *)
Class CrudStore (DB : Type) : Type := {
  super_find : option Filter → option Options → St DB (list Entity);
  super_findOne : option Filter → option Options → St DB (option Entity);
  super_findById : JsVal → option Filter → option Options → St DB Entity;
  super_updateAll : DataObject → option Where → option Options → St DB Count;
  super_count : option Where → option Options → St DB Count;
  super_update : Entity → option Options → St DB unit;
  super_updateById : JsVal → DataObject → option Options → St DB unit;
  super_deleteById : JsVal → option Options → St DB unit;
  super_deleteAll : option Where → option Options → St DB Count;
}.

(** ** The predicate rewriter ([./repo-utils]) *)

(** An object of equality constraints, such as [{id}]. *)
Abbreviation Condition := (list (string * JsVal)).

Definition conjuncts (c : Condition) : list Where :=
  map (λ kv, WEq kv.1 kv.2) c.

(** The exclusion [{deleted: false}]. *)
Definition notDeleted : Where := WEq "deleted" (VBool false).

(** Modelled from the spec: [produceSoftDeleteWhere] is imported from
    [./repo-utils], which is not among the sources.  Section 4.1
    ([augmentWhere]): the result is the logical AND of the caller's
    where clause, when there is one, and the exclusion; the argument is
    not altered. *)
Definition produceSoftDeleteWhere (whr : option Where) : Where :=
  WAnd (option_list whr ++ [notDeleted]).

(** Modelled from the spec: [produceSoftDeleteFilter] is imported from
    [./repo-utils], which is not among the sources.  Section 4.1
    ([augmentFilter]): the result is a filter whose where clause is the
    logical AND of the original where clause, the exclusion, and the
    extra equality constraints; an absent filter yields a filter holding
    only those.  The other components of the filter stay as they are
    (section 4.3, [findById]: the relation-inclusion options still
    apply). *)
Definition produceSoftDeleteFilter
    (flt : option Filter) (extraWhere : option Condition) : Filter :=
  {| where_ := Some (WAnd (option_list (flt ≫= where_) ++ [notDeleted]
                           ++ conjuncts (default [] extraWhere)));
     skip := flt ≫= skip;
     limit := flt ≫= limit;
     rest := default ∅ (rest <$> flt) |}.

(** ** The class *)

Module Base.
(** [Getter<T>], that is [() => Promise<T>]: an accessor bound in the
    request context.  Calling it yields a value or a rejection. *)
Definition Getter (Ctx A : Type) : Type := Ctx → Outcome A.

(** The constructor's own parameter; [entityClass] and [dataSource] go to
    the superclass. *)
Record Repository (Ctx : Type) : Type := mkRepository {
  getCurrentUser : option (Getter Ctx (option IAuthUser));
}.
Arguments mkRepository {Ctx} _.
Arguments getCurrentUser {Ctx} _.
End Base.

(** The special case of a repository whose accessor, when there is one,
    resolves on every call: the accessor is then the function that gives
    the value it resolves with.  Properties that hold when the accessor
    resolves are stated for such a repository, used as a
    [Base.Repository] through [resolving]; what a rejecting accessor does
    is stated for [Base.Repository] itself. *)
Record Repository (Ctx : Type) : Type := mkRepository {
  getCurrentUser : option (Ctx → option IAuthUser);
}.
Arguments mkRepository {Ctx} _.
Arguments getCurrentUser {Ctx} _.

(** Such a repository is a repository of the class. *)
Definition resolving {Ctx} (this : Repository Ctx) : Base.Repository Ctx :=
  Base.mkRepository
    (match getCurrentUser this with
     | Some getter => Some (λ c, Ok (getter c))
     | None => None
     end).
Coercion resolving : Repository >-> Base.Repository.

(** [string | undefined] stored into a property. *)
Definition ofUserId (u : option string) : JsVal :=
  match u with
  | Some s => VStr s
  | None => VUndefined
  end.

(** The object literal [{deleted: true, deletedOn: d, deletedBy: u}]. *)
Definition tombstone (d : JsVal) (u : option string) : DataObject :=
  <["deleted" := VBool true]> (<["deletedOn" := d]> (<["deletedBy" := ofUserId u]> ∅)).

Module SoftCrud.
Section Methods.
Context {DB : Type} `{!CrudStore DB} {Ctx : Type}.
Variable this : Base.Repository Ctx.

Local Abbreviation M := (M DB Ctx).

Definition find (flt : option Filter) (options : option Options)
    : M (list Entity) :=
  let flt := produceSoftDeleteFilter flt None in
  super (super_find (Some flt) options).

Definition findAll (flt : option Filter) (options : option Options)
    : M (list Entity) :=
  super (super_find flt options).

Definition findOne (flt : option Filter) (options : option Options)
    : M (option Entity) :=
  let flt := produceSoftDeleteFilter flt None in
  super (super_findOne (Some flt) options).

Definition findOneIncludeSoftDelete
    (flt : option Filter) (options : option Options) : M (option Entity) :=
  super (super_findOne flt options).

Definition findById (id : JsVal) (flt : option Filter)
    (options : option Options) : M Entity :=
  let flt := produceSoftDeleteFilter flt (Some [("id", id)]) in
  entityToRemove <- super (super_findOne (Some flt) options) ;;
  match entityToRemove with
  | Some _ => super (super_findById id (Some flt) options)
  | None => throw (HttpNotFound EntityNotFound)
  end.

Definition findByIdIncludeSoftDelete (id : JsVal) (flt : option Filter)
    (options : option Options) : M Entity :=
  super (super_findById id flt options).

Definition updateAll (data : DataObject) (whr : option Where)
    (options : option Options) : M Count :=
  let whr := produceSoftDeleteWhere whr in
  super (super_updateAll data (Some whr) options).

Definition count (whr : option Where) (options : option Options)
    : M Count :=
  let whr := produceSoftDeleteWhere whr in
  super (super_count (Some whr) options).

Definition getUserId (options : option Options) : M (option string) :=
  match Base.getCurrentUser this with
  | None => ret None
  | Some getter =>
      currentUser0 <- await getter ;;
      let currentUser1 :=
        match currentUser0 with
        | Some u => Some u
        | None => options ≫= currentUser
        end in
      match currentUser1 with
      | None => ret None
      | Some u =>
          if negb (truthy (id u)) then ret None
          else match toString (id u) with
               | Some s => ret (Some s)
               | None => throw TypeError
               end
      end
  end.

Definition delete (entity : loc) (options : option Options) : M unit :=
  assign entity "deleted" (VBool true) ;;;
  d <- newDate ;;
  assign entity "deletedOn" d ;;;
  u <- getUserId None ;;
  assign entity "deletedBy" (ofUserId u) ;;;
  e <- deref entity ;;
  super (super_update e options).

Definition deleteAll (whr : option Where) (options : option Options)
    : M Count :=
  d <- newDate ;;
  u <- getUserId None ;;
  updateAll (tombstone d u) whr options.

Definition deleteById (id : JsVal) (options : option Options) : M unit :=
  d <- newDate ;;
  u <- getUserId None ;;
  super (super_updateById id (tombstone d u) options).

Definition deleteHard (entity : loc) (options : option Options) : M unit :=
  e <- deref entity ;;
  super (super_deleteById (getId e) options).

Definition deleteAllHard (whr : option Where) (options : option Options)
    : M Count :=
  super (super_deleteAll whr options).

Definition deleteByIdHard (id : JsVal) (options : option Options) : M unit :=
  super (super_deleteById id options).
End Methods.
End SoftCrud.

(** ** An in-memory table

    A reference implementation of the superclass over a list of rows,
    with the semantics of LoopBack's CRUD operations: a where clause
    selects rows, [skip] and [limit] cut a window out of the selection, an
    update merges the patch into each selected row, by-id operations
    reject an unknown id.  The identifying property is [id].  The list
    holds the rows in the order the connector returns them when the
    filter asks for none (by id).

    The superclass is seen from the class under study: where its
    inherited code calls [this.updateAll], the call lands in the override
    of this class. *)
Module MemStore.

Fixpoint holds (e : Entity) (w : Where) : bool :=
  match w with
  | WEq k v => bool_decide (e !! k = Some v)
  | WOp k p => p (e !! k)
  | WAnd ws => forallb (holds e) ws
  | WOr ws => existsb (holds e) ws
  end.

(** An absent where clause selects everything. *)
Definition selects (whr : option Where) (e : Entity) : bool :=
  match whr with
  | Some w => holds e w
  | None => true
  end.

(** A limit of zero counts as no limit. *)
Definition window (flt : option Filter) (rows : list Entity) : list Entity :=
  let rows := drop (default 0 (flt ≫= skip)) rows in
  match flt ≫= limit with
  | Some (S n) => take (S n) rows
  | Some 0 | None => rows
  end.

Definition hasId (i : JsVal) (e : Entity) : bool :=
  bool_decide (e !! "id" = Some i).

(** Merging a patch into a row: the patch wins on its own keys. *)
Definition patch (data : DataObject) (e : Entity) : Entity := data ∪ e.

Definition patchWhere (sel : Entity → bool) (data : DataObject)
    (rows : list Entity) : list Entity :=
  map (λ e, if sel e then patch data e else e) rows.

Definition notFound {A} (i : JsVal) (rows : list Entity)
    : Outcome A * list Entity :=
  (Throw (StoreError "ENTITY_NOT_FOUND" i), rows).

Definition find (flt : option Filter) (_ : option Options)
    : St (list Entity) (list Entity) :=
  λ rows, (Ok (window flt (List.filter (selects (flt ≫= where_)) rows)), rows).

(** [findOne] is [find] with the limit forced to one. *)
Definition findOne (flt : option Filter) (_ : option Options)
    : St (list Entity) (option Entity) :=
  λ rows,
    (Ok (head (drop (default 0 (flt ≫= skip))
                    (List.filter (selects (flt ≫= where_)) rows))), rows).

(** [findById] takes a [FilterExcludingWhere<T>]: only the shaping
    components of the filter are looked at. *)
Definition findById (i : JsVal) (_ : option Filter) (_ : option Options)
    : St (list Entity) Entity :=
  λ rows, match List.find (hasId i) rows with
          | Some e => (Ok e, rows)
          | None => notFound i rows
          end.

Definition updateAll (data : DataObject) (whr : option Where)
    (_ : option Options) : St (list Entity) Count :=
  λ rows, (Ok (mkCount (length (List.filter (selects whr) rows))),
           patchWhere (selects whr) data rows).

Definition count (whr : option Where) (_ : option Options)
    : St (list Entity) Count :=
  λ rows, (Ok (mkCount (length (List.filter (selects whr) rows))), rows).

(** [updateById(id, data)] is inherited code: it calls
    [this.updateAll(data, {id})] and rejects when that updated nothing.
    The call is dispatched to the override of [updateAll] in the class
    under study (source lines 93-102), which rewrites the where clause
    with [produceSoftDeleteWhere] before it reaches [updateAll] here. *)
Definition updateById (i : JsVal) (data : DataObject) (options : option Options)
    : St (list Entity) unit :=
  λ rows,
    match updateAll data (Some (produceSoftDeleteWhere (Some (WEq "id" i))))
                    options rows with
    | (Ok (mkCount 0), rows') => notFound i rows'
    | (Ok _, rows') => (Ok (), rows')
    | (Throw e, rows') => (Throw e, rows')
    end.

(** [update(entity)] is inherited code too: it is
    [this.updateById(entity.getId(), entity)], which the class under
    study does not override. *)
Definition update (e : Entity) (options : option Options)
    : St (list Entity) unit :=
  updateById (getId e) e options.

Definition deleteById (i : JsVal) (_ : option Options)
    : St (list Entity) unit :=
  λ rows, if existsb (hasId i) rows
          then (Ok (), List.filter (λ e, negb (hasId i e)) rows)
          else notFound i rows.

Definition deleteAll (whr : option Where) (_ : option Options)
    : St (list Entity) Count :=
  λ rows, (Ok (mkCount (length (List.filter (selects whr) rows))),
           List.filter (λ e, negb (selects whr e)) rows).

End MemStore.

#[global] Instance memStore : CrudStore (list Entity) := {
  super_find := MemStore.find;
  super_findOne := MemStore.findOne;
  super_findById := MemStore.findById;
  super_updateAll := MemStore.updateAll;
  super_count := MemStore.count;
  super_update := MemStore.update;
  super_updateById := MemStore.updateById;
  super_deleteById := MemStore.deleteById;
  super_deleteAll := MemStore.deleteAll;
}.

(** ** Data-model vocabulary *)

(** The tombstone flag is raised. *)
Definition tombstoned (e : Entity) : bool :=
  bool_decide (e !! "deleted" = Some (VBool true)).

(** The tombstone flag is present and lowered: what [{deleted: false}]
    selects. *)
Definition live (e : Entity) : bool :=
  bool_decide (e !! "deleted" = Some (VBool false)).

(** [deletedOn] holds a timestamp. *)
Definition deletedOnSet (e : Entity) : bool :=
  match e !! "deletedOn" with
  | Some (VDate _) => true
  | _ => false
  end.

(** Section 3: [deleted = true] exactly when [deletedOn] is set. *)
Definition consistent (e : Entity) : bool :=
  eqb (tombstoned e) (deletedOnSet e).

(** ** Sample data *)
Module Sample.
Definition row (i : Z) (status : string) (deleted : bool) : Entity :=
  <["id" := VNum i]> (<["status" := VStr status]> (<["deleted" := VBool deleted]> ∅)).

Definition dead (i : Z) (status : string) (t : Z) : Entity :=
  <["deletedOn" := VDate t]> (row i status true).

(** The context holds the user of the request, which the accessor hands out. *)
Definition withAccessor : Repository (option IAuthUser) :=
  mkRepository (Some (λ c, c)).
Definition noAccessor : Repository (option IAuthUser) := mkRepository None.

Definition world (rows : list Entity) (h : gmap loc Entity) (t : Z)
    (u : option IAuthUser) : World (list Entity) (option IAuthUser) :=
  mkWorld h rows t u.

Definition u1 : IAuthUser := mkUser (IdStr "u1") "alice".
Definition u42 : IAuthUser := mkUser (IdNum 42 I) "bob".

(** One tombstoned row followed by two live ones. *)
Definition table3 : list Entity :=
  [dead 1 "pending" 5; row 2 "pending" false; row 3 "pending" false].

(** The filter [{limit: 1}] and the filter [{where: {status: "pending"}}]. *)
Definition limit1 : Filter := mkFilter None None (Some 1) ∅.
Definition pending : Where := WEq "status" (VStr "pending").
Definition wherePending : Filter := mkFilter (Some pending) None None ∅.

Definition w3 : World (list Entity) (option IAuthUser) :=
  world table3 ∅ 10 None.

(** Three live and two tombstoned rows, all pending. *)
Definition table5 : list Entity :=
  [row 1 "pending" false; dead 2 "pending" 5; row 3 "pending" false;
   dead 4 "pending" 7; row 5 "pending" false].

Definition w5 : World (list Entity) (option IAuthUser) :=
  world table5 ∅ 10 (Some u1).

(** A caller holding row 1 of a one-row table; nobody is logged in. *)
Definition held : gmap loc Entity := {[ 1%positive := row 1 "pending" false ]}.
Definition wAnon : World (list Entity) (option IAuthUser) :=
  world [row 1 "pending" false] held 10 None.

(** The same, with user [u1] or [u42] in the request context. *)
Definition wU1 : World (list Entity) (option IAuthUser) :=
  world [row 1 "pending" false] held 10 (Some u1).
Definition wU42 : World (list Entity) (option IAuthUser) :=
  world [row 1 "pending" false] held 10 (Some u42).

(** The record [{id: 1, deleted: false}] alone in its table, no caller
    object, no user. *)
Definition rec1 : Entity := <["id" := VNum 1]> (<["deleted" := VBool false]> ∅).
Definition wRec1 : World (list Entity) (option IAuthUser) :=
  world [rec1] ∅ 10 None.

(** The world a second [delete] of the held row starts in: the caller's
    heap is as the first call left it; ten milliseconds have passed and
    another user is logged in. *)
Definition wLater : World (list Entity) (option IAuthUser) :=
  let w1 := (SoftCrud.delete withAccessor 1%positive None wU1).2 in
  world (db w1) (heap w1) 20 (Some u42).

(** A caller holding an object whose id, 9, is not in the table. *)
Definition wOrphan : World (list Entity) (option IAuthUser) :=
  world table3 {[ 1%positive := row 9 "pending" false ]} 10 (Some u1).

(** A caller holding row 2 of [table3]. *)
Definition wHeld2 : World (list Entity) (option IAuthUser) :=
  world table3 {[ 1%positive := row 2 "pending" false ]} 10 (Some u1).

(** A repository whose accessor rejects, as an injected getter does
    when nothing is bound to its key. *)
Definition unbound : Error := Rejected "authentication.currentUser is not bound".
Definition rejecting : Base.Repository (option IAuthUser) :=
  Base.mkRepository (Some (λ _, Throw unbound)).

(** A table holding only a tombstoned record with id 1. *)
Definition wDead1 : World (list Entity) (option IAuthUser) :=
  world [dead 1 "pending" 5] ∅ 10 None.

(** An options bag carrying [u1] as [currentUser]. *)
Definition optsU1 : Options := mkOptions (Some u1) ∅.

(** The filter that [findById(2)] probes with. *)
Definition byId2 : Filter :=
  produceSoftDeleteFilter None (Some [("id", VNum 2)]).
End Sample.


(** ** Proof vocabulary *)

(** The user [getUserId] settles on: the accessor's, else the one in the
    options it was handed; nobody without an accessor. *)
Definition resolvedUser {Ctx} (this : Repository Ctx)
    (options : option Options) (c : Ctx) : option IAuthUser :=
  match getCurrentUser this with
  | None => None
  | Some getter =>
      match getter c with
      | Some u => Some u
      | None => options ≫= currentUser
      end
  end.

(** The identifier recorded for a user. *)
Definition actorOf (u : option IAuthUser) : option string :=
  match u with
  | Some u => if truthy (id u) then toString (id u) else None
  | None => None
  end.

(** What [getUserId(options)] ends with, read off the accessor: a
    rejection of the accessor is the rejection of [getUserId]. *)
Definition resolution {Ctx} (this : Base.Repository Ctx)
    (options : option Options) (c : Ctx) : Outcome (option string) :=
  match Base.getCurrentUser this with
  | None => Ok None
  | Some getter =>
      match getter c with
      | Throw err => Throw err
      | Ok (Some u) => Ok (actorOf (Some u))
      | Ok None => Ok (actorOf (options ≫= currentUser))
      end
  end.

(** The methods that soft-delete call [getUserId] with no argument. *)
Definition actor {DB Ctx} (this : Repository Ctx) (w : World DB Ctx)
    : option string :=
  actorOf (resolvedUser this None (ctx w)).

(** The entity as [delete] leaves it. *)
Definition stamped (e : Entity) (t : Z) (a : option string) : Entity :=
  <["deletedBy" := ofUserId a]>
    (<["deletedOn" := VDate t]> (<["deleted" := VBool true]> e)).

(** The tombstone-free part of a result. *)
Definition keepLive (r : Outcome (list Entity)) : Outcome (list Entity) :=
  match r with
  | Ok rows => Ok (List.filter live rows)
  | Throw e => Throw e
  end.

(** The filter cuts no window: no [limit], and no [skip] but zero. *)
Definition unwindowed (flt : option Filter) : bool :=
  bool_decide (default 0 (flt ≫= skip) = 0 ∧ flt ≫= limit = None).

(** The rows of a table that carry a given id. *)
Definition withId (i : JsVal) (rows : list Entity) : list Entity :=
  List.filter (MemStore.hasId i) rows.

(** The non-tombstoned matches of a where clause. *)
Definition hit (whr : option Where) (e : Entity) : bool :=
  MemStore.selects whr e && live e.

(** A row with a given id that [{deleted: false}] selects: what the
    inherited [updateById] can reach through the overridden [updateAll]. *)
Definition liveWithId (i : JsVal) (e : Entity) : bool :=
  MemStore.hasId i e && live e.

(** The three properties a tombstone is made of. *)
Definition tombstoneKeys : list string := ["deleted"; "deletedOn"; "deletedBy"].

(** The identifying column of a table. *)
Definition idColumn (rows : list Entity) : list (option JsVal) :=
  map (λ r, r !! "id") rows.

(** No identity can be resolved in context [c]: there is no accessor, or
    it yields no user, or the user it yields has a falsy id. *)
Definition noIdentity {Ctx} (this : Base.Repository Ctx) (c : Ctx) : bool :=
  match Base.getCurrentUser this with
  | None => true
  | Some getter =>
      match getter c with
      | Ok None => true
      | Ok (Some u) => negb (truthy (id u))
      | Throw _ => false
      end
  end.

(** A result seen through a function. *)
Definition mapOutcome {A B} (f : A → B) (r : Outcome A) : Outcome B :=
  match r with
  | Ok a => Ok (f a)
  | Throw e => Throw e
  end.

(** The filter [{where: w}]. *)
Definition whereOnly (whr : option Where) : Filter := mkFilter whr None None ∅.

(** The [Count] of a list of rows. *)
Definition counted (rows : list Entity) : Count := mkCount (length rows).

(** * Properties *)

(** ** Actor resolution *)

Lemma truthy_toString i : truthy i = true → is_Some (toString i).
Proof. destruct i; simpl; intros; try discriminate; eauto. Qed.

Lemma world_eta {DB Ctx} (w : World DB Ctx) :
  mkWorld (heap w) (db w) (now w) (ctx w) = w.
Proof. by destruct w. Qed.

Section Accessor.
Context {DB : Type} `{!CrudStore DB} {Ctx : Type}.
Variable this : Base.Repository Ctx.
Implicit Types (w : World DB Ctx) (options : option Options).

(** [getUserId] changes nothing, and ends as [resolution] says. *)
Lemma getUserId_resolution options w :
  SoftCrud.getUserId this options w = (resolution this options (ctx w), w).
Proof.
  unfold SoftCrud.getUserId, resolution.
  destruct (Base.getCurrentUser this) as [getter|]; [|done].
  unfold bind, await.
  destruct (getter (ctx w)) as [[u|]|err]; simpl; [| |done].
  - destruct (truthy (id u)) eqn:Ht; simpl; [|done].
    by destruct (truthy_toString _ Ht) as [s ->].
  - destruct (options ≫= currentUser) as [u|]; simpl; [|done].
    destruct (truthy (id u)) eqn:Ht; simpl; [|done].
    by destruct (truthy_toString _ Ht) as [s ->].
Qed.

Lemma delete_resolved (entity : loc) options w e a :
  heap w !! entity = Some e →
  resolution this None (ctx w) = Ok a →
  SoftCrud.delete this entity options w
  = let e' := stamped e (now w) a in
    let '(r, d) := super_update e' options (db w) in
    (r, mkWorld (<[entity := e']> (heap w)) d (now w) (ctx w)).
Proof.
  intros He Ha. unfold SoftCrud.delete, bind, assign, newDate, deref, super.
  rewrite He. simpl. rewrite lookup_insert_eq. simpl.
  rewrite getUserId_resolution. simpl. rewrite Ha.
  rewrite lookup_insert_eq. simpl.
  rewrite lookup_insert_eq. rewrite !insert_insert_eq. reflexivity.
Qed.

(** A rejecting accessor stops [delete] after its first two assignments
    and before the store. *)
Lemma delete_rejected (entity : loc) options w e err :
  heap w !! entity = Some e →
  resolution this None (ctx w) = Throw err →
  SoftCrud.delete this entity options w
  = (Throw err,
     mkWorld (<[entity := <["deletedOn" := VDate (now w)]>
                            (<["deleted" := VBool true]> e)]> (heap w))
       (db w) (now w) (ctx w)).
Proof.
  intros He Ha. unfold SoftCrud.delete, bind, assign, newDate.
  rewrite He. simpl. rewrite lookup_insert_eq. simpl.
  rewrite getUserId_resolution. simpl. rewrite Ha.
  by rewrite insert_insert_eq.
Qed.

Lemma deleteAll_resolved whr options w a :
  resolution this None (ctx w) = Ok a →
  SoftCrud.deleteAll this whr options w
  = SoftCrud.updateAll (tombstone (VDate (now w)) a) whr options w.
Proof.
  intros Ha. unfold SoftCrud.deleteAll, bind, newDate.
  by rewrite getUserId_resolution, Ha.
Qed.

Lemma deleteAll_rejected whr options w err :
  resolution this None (ctx w) = Throw err →
  SoftCrud.deleteAll this whr options w = (Throw err, w).
Proof.
  intros Ha. unfold SoftCrud.deleteAll, bind, newDate.
  by rewrite getUserId_resolution, Ha.
Qed.

Lemma deleteById_resolved (i : JsVal) options w a :
  resolution this None (ctx w) = Ok a →
  SoftCrud.deleteById this i options w
  = super (super_updateById i (tombstone (VDate (now w)) a) options) w.
Proof.
  intros Ha. unfold SoftCrud.deleteById, bind, newDate.
  by rewrite getUserId_resolution, Ha.
Qed.

Lemma deleteById_rejected (i : JsVal) options w err :
  resolution this None (ctx w) = Throw err →
  SoftCrud.deleteById this i options w = (Throw err, w).
Proof.
  intros Ha. unfold SoftCrud.deleteById, bind, newDate.
  by rewrite getUserId_resolution, Ha.
Qed.
End Accessor.

Lemma resolution_resolving {Ctx} (this : Repository Ctx)
    (options : option Options) (c : Ctx) :
  resolution this options c = Ok (actorOf (resolvedUser this options c)).
Proof.
  unfold resolution, resolvedUser, resolving. simpl.
  destruct (getCurrentUser this) as [getter|]; [|done].
  by destruct (getter c).
Qed.

Section Layer.
Context {DB : Type} `{!CrudStore DB} {Ctx : Type}.
Variable this : Repository Ctx.
Implicit Types (w : World DB Ctx) (options : option Options).

(** With an accessor that resolves, [getUserId] returns, and changes
    nothing. *)
Lemma getUserId_run options w :
  SoftCrud.getUserId this options w
  = (Ok (actorOf (resolvedUser this options (ctx w))), w).
Proof. by rewrite getUserId_resolution, resolution_resolving. Qed.

Lemma delete_run (entity : loc) options w e :
  heap w !! entity = Some e →
  SoftCrud.delete this entity options w
  = let e' := stamped e (now w) (actor this w) in
    let '(r, d) := super_update e' options (db w) in
    (r, mkWorld (<[entity := e']> (heap w)) d (now w) (ctx w)).
Proof.
  intros He. apply (delete_resolved this entity options w e _ He).
  apply resolution_resolving.
Qed.

Lemma delete_dangling (entity : loc) options w :
  heap w !! entity = None →
  SoftCrud.delete this entity options w = (Throw TypeError, w).
Proof.
  intros He. unfold SoftCrud.delete, bind, assign. by rewrite He.
Qed.

Lemma findById_found (i : JsVal) (flt : option Filter) options w e d :
  super_findOne (Some (produceSoftDeleteFilter flt (Some [("id", i)])))
                options (db w) = (Ok (Some e), d) →
  SoftCrud.findById i flt options w
  = super (super_findById i
             (Some (produceSoftDeleteFilter flt (Some [("id", i)]))) options)
          (mkWorld (heap w) d (now w) (ctx w)).
Proof.
  intros H. unfold SoftCrud.findById, bind. unfold super at 1. by rewrite H.
Qed.

Lemma findById_missing (i : JsVal) (flt : option Filter) options w d :
  super_findOne (Some (produceSoftDeleteFilter flt (Some [("id", i)])))
                options (db w) = (Ok None, d) →
  SoftCrud.findById i flt options w
  = (Throw (HttpNotFound EntityNotFound), mkWorld (heap w) d (now w) (ctx w)).
Proof.
  intros H. unfold SoftCrud.findById, bind. unfold super at 1. by rewrite H.
Qed.

Lemma findById_failed (i : JsVal) (flt : option Filter) options w err d :
  super_findOne (Some (produceSoftDeleteFilter flt (Some [("id", i)])))
                options (db w) = (Throw err, d) →
  SoftCrud.findById i flt options w
  = (Throw err, mkWorld (heap w) d (now w) (ctx w)).
Proof.
  intros H. unfold SoftCrud.findById, bind. unfold super at 1. by rewrite H.
Qed.

Lemma updateAll_run data whr options w :
  SoftCrud.updateAll data whr options w
  = super (super_updateAll data (Some (produceSoftDeleteWhere whr)) options) w.
Proof. reflexivity. Qed.

Lemma deleteAll_run whr options w :
  SoftCrud.deleteAll this whr options w
  = SoftCrud.updateAll (tombstone (VDate (now w)) (actor this w)) whr options w.
Proof.
  unfold SoftCrud.deleteAll, bind, newDate. by rewrite getUserId_run.
Qed.

Lemma deleteById_run (i : JsVal) options w :
  SoftCrud.deleteById this i options w
  = super (super_updateById i (tombstone (VDate (now w)) (actor this w)) options) w.
Proof.
  unfold SoftCrud.deleteById, bind, newDate. by rewrite getUserId_run.
Qed.
End Layer.

(** ** The in-memory table *)

Section Table.
Context {Ctx : Type}.
Implicit Types (w : World (list Entity) Ctx) (e : Entity) (rows : list Entity).

Lemma holds_conjuncts e (c : Condition) :
  forallb (MemStore.holds e) (conjuncts c)
  = forallb (λ kv, bool_decide (e !! kv.1 = Some kv.2)) c.
Proof. induction c as [|kv c IH]; [done|]. simpl. by rewrite IH. Qed.

Lemma holds_rewritten e (whr : option Where) (c : Condition) :
  MemStore.holds e (WAnd (option_list whr ++ [notDeleted] ++ conjuncts c))
  = MemStore.selects whr e && live e
    && forallb (λ kv, bool_decide (e !! kv.1 = Some kv.2)) c.
Proof.
  simpl. rewrite forallb_app. simpl. rewrite holds_conjuncts.
  destruct whr as [w0|]; simpl; unfold live.
  - by rewrite andb_true_r, andb_assoc.
  - reflexivity.
Qed.

Lemma selects_produceSoftDeleteWhere e (whr : option Where) :
  MemStore.selects (Some (produceSoftDeleteWhere whr)) e
  = MemStore.selects whr e && live e.
Proof.
  unfold produceSoftDeleteWhere.
  pose proof (holds_rewritten e whr []) as H. simpl in H |- *.
  rewrite H. by rewrite andb_true_r.
Qed.

Lemma filter_andb {A} (p q : A → bool) (l : list A) :
  List.filter (λ x, p x && q x) l = List.filter q (List.filter p l).
Proof.
  induction l as [|x l IH]; [done|]. simpl.
  destruct (p x); simpl; [destruct (q x)|]; by rewrite IH.
Qed.

Lemma window_unwindowed (flt : option Filter) rows :
  unwindowed flt = true → MemStore.window flt rows = rows.
Proof.
  unfold unwindowed, MemStore.window. intros [Hs Hl]%bool_decide_eq_true.
  by rewrite Hs, Hl.
Qed.

(** What [find] returns on the table: the window of the live selection. *)
Lemma find_table (flt : option Filter) options w :
  SoftCrud.find flt options w
  = (Ok (MemStore.window flt
           (List.filter live (List.filter (MemStore.selects (flt ≫= where_)) (db w)))),
     w).
Proof.
  unfold SoftCrud.find, super. simpl. unfold MemStore.find. simpl.
  rewrite world_eta. f_equal. f_equal.
  rewrite <- filter_andb.
  rewrite (filter_ext _ (λ e, MemStore.selects (flt ≫= where_) e && live e)).
  - by destruct flt.
  - intros e. apply (selects_produceSoftDeleteWhere e).
Qed.

Lemma findAll_table (flt : option Filter) options w :
  SoftCrud.findAll flt options w
  = (Ok (MemStore.window flt
           (List.filter (MemStore.selects (flt ≫= where_)) (db w))), w).
Proof.
  unfold SoftCrud.findAll, super. simpl. unfold MemStore.find.
  by rewrite world_eta.
Qed.
End Table.

(** ** Reads *)

(** C1, as stated, fails: over a tombstoned row followed by two live
    rows, [find({limit: 1})] returns the first live row, whereas
    [findAll({limit: 1})] returns the tombstoned row, whose live part is
    empty. *)
Lemma find_limit_counterexample :
  (SoftCrud.find (Some Sample.limit1) None Sample.w3).1
    = Ok [Sample.row 2 "pending" false]
  ∧ (SoftCrud.findAll (Some Sample.limit1) None Sample.w3).1
    = Ok [Sample.dead 1 "pending" 5]
  ∧ (SoftCrud.find (Some Sample.limit1) None Sample.w3).1
    ≠ keepLive (SoftCrud.findAll (Some Sample.limit1) None Sample.w3).1.
Proof.
  assert (Hfind : (SoftCrud.find (Some Sample.limit1) None Sample.w3).1
                  = Ok [Sample.row 2 "pending" false]) by (vm_compute; reflexivity).
  assert (Hall : (SoftCrud.findAll (Some Sample.limit1) None Sample.w3).1
                 = Ok [Sample.dead 1 "pending" 5]) by (vm_compute; reflexivity).
  split; [exact Hfind|]. split; [exact Hall|].
  rewrite Hfind, Hall. vm_compute. discriminate.
Qed.

(** C1, amended: [find(f)] hands the rewritten filter to the underlying
    find and [findAll(f)] hands [f] itself, for every store; on the
    in-memory table, when [f] has no [skip]/[limit] window, [find(f)]
    returns exactly the rows of [findAll(f)] whose [deleted] flag is
    false. *)
Theorem find_is_live_part_of_findAll :
  (∀ (DB : Type) (S : CrudStore DB) (Ctx : Type) (flt : option Filter)
     (options : option Options) (w : World DB Ctx),
     SoftCrud.find flt options w
     = super (super_find (Some (produceSoftDeleteFilter flt None)) options) w
     ∧ SoftCrud.findAll flt options w = super (super_find flt options) w)
  ∧ (∀ (Ctx : Type) (flt : option Filter) (options : option Options)
       (w : World (list Entity) Ctx),
       unwindowed flt = true →
       (SoftCrud.find flt options w).1
       = keepLive (SoftCrud.findAll flt options w).1).
Proof.
  split; [by intros|].
  intros Ctx flt options w Hu.
  rewrite find_table, findAll_table. simpl.
  by rewrite !window_unwindowed.
Qed.

Lemma find_is_live_part_of_findAll_witness :
  unwindowed (Some Sample.wherePending) = true
  ∧ (SoftCrud.find (Some Sample.wherePending) None Sample.w3).1
    = keepLive (SoftCrud.findAll (Some Sample.wherePending) None Sample.w3).1.
Proof.
  split; [reflexivity|].
  apply (proj2 find_is_live_part_of_findAll). reflexivity.
Defined.

Section Reads.
Context {Ctx : Type}.
Implicit Types (w : World (list Entity) Ctx) (e r : Entity) (rows : list Entity).

Lemma find_head_filter {A} (p : A → bool) (l : list A) :
  List.find p l = head (List.filter p l).
Proof.
  induction l as [|x l IH]; [done|]. simpl. by destruct (p x).
Qed.

Lemma tombstoned_not_live e : tombstoned e = true → live e = false.
Proof.
  unfold tombstoned, live. intros H%bool_decide_eq_true.
  apply bool_decide_eq_false. congruence.
Qed.

Lemma withId_singleton_elem (i : JsVal) rows r e :
  withId i rows = [r] → e ∈ rows → MemStore.hasId i e = true → e = r.
Proof.
  intros Hr He Hi.
  assert (In e (withId i rows)) as Hin.
  { apply filter_In. split; [by apply list_elem_of_In|done]. }
  rewrite Hr in Hin. destruct Hin as [->|[]]. done.
Qed.

Lemma filter_nil_iff {A} (p : A → bool) (l : list A) :
  (∀ x, x ∈ l → p x = false) → List.filter p l = [].
Proof.
  induction l as [|x l IH]; [done|]. intros H. simpl.
  rewrite (H x) by apply list_elem_of_here.
  apply IH. intros y Hy. apply H. by apply list_elem_of_further.
Qed.

(** The probe of [findById] finds nothing when every row with the id is
    tombstoned. *)
Lemma probe_empty (i : JsVal) (flt : option Filter) rows r :
  withId i rows = [r] → tombstoned r = true →
  List.filter
    (MemStore.selects
       (where_ (produceSoftDeleteFilter flt (Some [("id", i)])))) rows = [].
Proof.
  intros Hr Ht. apply filter_nil_iff. intros e He. simpl.
  pose proof (holds_rewritten e (flt ≫= where_) [("id", i)]) as H.
  simpl in H |- *. rewrite H. rewrite andb_true_r.
  destruct (bool_decide (e !! "id" = Some i)) eqn:Hi.
  - rewrite (withId_singleton_elem i rows r e Hr He Hi).
    rewrite (tombstoned_not_live r Ht). by rewrite andb_false_r.
  - by rewrite andb_false_r.
Qed.
End Reads.

(** C5: [findById(id, filter)] builds one augmented filter, whose where
    clause is the conjunction of the caller's where clause, the exclusion
    [{deleted: false}] and [{id}]; it probes with the underlying find-one
    on that filter; when the probe returns an entity it delegates to the
    underlying by-id fetch with the same augmented filter; when the probe
    returns nothing it throws NotFound(EntityNotFound); a failing probe is
    passed on. *)
Theorem findById_probe_then_fetch :
  ∀ (DB : Type) (S : CrudStore DB) (Ctx : Type) (i : JsVal)
    (flt : option Filter) (options : option Options) (w : World DB Ctx),
    where_ (produceSoftDeleteFilter flt (Some [("id", i)]))
    = Some (WAnd (option_list (flt ≫= where_) ++ [notDeleted; WEq "id" i]))
    ∧ (∀ e, MemStore.holds e (WAnd (option_list (flt ≫= where_)
                                     ++ [notDeleted; WEq "id" i]))
            = MemStore.selects (flt ≫= where_) e && live e && MemStore.hasId i e)
    ∧ (∀ e d,
         super_findOne (Some (produceSoftDeleteFilter flt (Some [("id", i)])))
                       options (db w) = (Ok (Some e), d) →
         SoftCrud.findById i flt options w
         = super (super_findById i
                    (Some (produceSoftDeleteFilter flt (Some [("id", i)]))) options)
                 (mkWorld (heap w) d (now w) (ctx w)))
    ∧ (∀ d,
         super_findOne (Some (produceSoftDeleteFilter flt (Some [("id", i)])))
                       options (db w) = (Ok None, d) →
         SoftCrud.findById i flt options w
         = (Throw (HttpNotFound EntityNotFound), mkWorld (heap w) d (now w) (ctx w)))
    ∧ (∀ err d,
         super_findOne (Some (produceSoftDeleteFilter flt (Some [("id", i)])))
                       options (db w) = (Throw err, d) →
         SoftCrud.findById i flt options w
         = (Throw err, mkWorld (heap w) d (now w) (ctx w))).
Proof.
  intros DB S Ctx i flt options w. split; [done|]. split.
  { intros e. pose proof (holds_rewritten e (flt ≫= where_) [("id", i)]) as H.
    simpl in H |- *. rewrite H. unfold MemStore.hasId. by rewrite andb_true_r. }
  repeat split.
  - intros e d. apply findById_found.
  - intros d. apply findById_missing.
  - intros err d. apply findById_failed.
Qed.

Lemma findById_probe_then_fetch_witness :
  SoftCrud.findById (VNum 2) None None Sample.w3
  = super (super_findById (VNum 2) (Some Sample.byId2) None)
          (mkWorld (heap Sample.w3) Sample.table3 (now Sample.w3) (ctx Sample.w3)).
Proof.
  apply (proj1 (proj2 (proj2
    (findById_probe_then_fetch _ _ _ (VNum 2) None None Sample.w3)))
    (Sample.row 2 "pending" false)).
  vm_compute. reflexivity.
Defined.

(** C2: when the table holds exactly one row with id [i] and that row is
    tombstoned, [findById(i)] fails with NotFound(EntityNotFound), whatever
    filter comes with it, while [findByIdIncludeSoftDelete(i)] returns the
    tombstoned row; neither changes anything. *)
Theorem tombstoned_id_not_found :
  ∀ (Ctx : Type) (i : JsVal) (r : Entity) (flt : option Filter)
    (options : option Options) (w : World (list Entity) Ctx),
    withId i (db w) = [r] →
    tombstoned r = true →
    SoftCrud.findById i flt options w = (Throw (HttpNotFound EntityNotFound), w)
    ∧ SoftCrud.findByIdIncludeSoftDelete i flt options w = (Ok r, w).
Proof.
  intros Ctx i r flt options w Hr Ht. split.
  - rewrite (findById_missing i flt options w (db w)); [by rewrite world_eta|].
    simpl. unfold MemStore.findOne. f_equal.
    change (Some (produceSoftDeleteFilter flt (Some [("id", i)])) ≫= where_)
      with (where_ (produceSoftDeleteFilter flt (Some [("id", i)]))).
    rewrite (probe_empty i flt (db w) r Hr Ht).
    by rewrite drop_nil.
  - unfold SoftCrud.findByIdIncludeSoftDelete, super. simpl.
    unfold MemStore.findById. rewrite find_head_filter.
    fold (withId i (db w)). rewrite Hr. simpl. by rewrite world_eta.
Qed.

Lemma tombstoned_id_not_found_witness :
  withId (VNum 1) (db Sample.w3) = [Sample.dead 1 "pending" 5]
  ∧ tombstoned (Sample.dead 1 "pending" 5) = true
  ∧ SoftCrud.findById (VNum 1) None None Sample.w3
    = (Throw (HttpNotFound EntityNotFound), Sample.w3)
  ∧ SoftCrud.findByIdIncludeSoftDelete (VNum 1) None None Sample.w3
    = (Ok (Sample.dead 1 "pending" 5), Sample.w3).
Proof.
  split; [vm_compute; reflexivity|]. split; [vm_compute; reflexivity|].
  apply (tombstoned_id_not_found _ (VNum 1) (Sample.dead 1 "pending" 5)
           None None Sample.w3); vm_compute; reflexivity.
Defined.

(** ** Soft deletion *)

Section Tombstones.
Implicit Types (e r p : Entity) (rows : list Entity).

Lemma tombstone_deleted d a : tombstone d a !! "deleted" = Some (VBool true).
Proof. unfold tombstone. by rewrite lookup_insert_eq. Qed.

Lemma tombstone_deletedOn d a : tombstone d a !! "deletedOn" = Some d.
Proof.
  unfold tombstone. rewrite lookup_insert_ne by done.
  by rewrite lookup_insert_eq.
Qed.

Lemma tombstone_deletedBy d a :
  tombstone d a !! "deletedBy" = Some (ofUserId a).
Proof.
  unfold tombstone. do 2 (rewrite lookup_insert_ne by done).
  by rewrite lookup_insert_eq.
Qed.

Lemma stamped_deleted e t a : stamped e t a !! "deleted" = Some (VBool true).
Proof.
  unfold stamped. do 2 (rewrite lookup_insert_ne by done).
  by rewrite lookup_insert_eq.
Qed.

Lemma stamped_deletedOn e t a : stamped e t a !! "deletedOn" = Some (VDate t).
Proof.
  unfold stamped. rewrite lookup_insert_ne by done.
  by rewrite lookup_insert_eq.
Qed.

Lemma stamped_deletedBy e t a :
  stamped e t a !! "deletedBy" = Some (ofUserId a).
Proof. unfold stamped. by rewrite lookup_insert_eq. Qed.

(** The frame: a property that is not a tombstone property is as before. *)
Lemma stamped_other e t a k :
  k ∉ tombstoneKeys → stamped e t a !! k = e !! k.
Proof.
  unfold tombstoneKeys. intros Hk. unfold stamped.
  rewrite !lookup_insert_ne; [done|..]; intros <-; apply Hk; set_solver.
Qed.

(** Last writer wins. *)
Lemma stamped_stamped e t a t' a' :
  stamped (stamped e t a) t' a' = stamped e t' a'.
Proof.
  apply map_eq. intros k.
  destruct (decide (k ∈ tombstoneKeys)) as [Hk|Hk].
  - unfold tombstoneKeys in Hk.
    repeat (apply elem_of_cons in Hk as [->|Hk]);
      [by rewrite !stamped_deleted|by rewrite !stamped_deletedOn
      |by rewrite !stamped_deletedBy|by apply elem_of_nil in Hk].
  - by rewrite !stamped_other.
Qed.

Lemma tombstoned_hit whr e : tombstoned e = true → hit whr e = false.
Proof.
  intros H. unfold hit. rewrite (tombstoned_not_live e H).
  apply andb_false_r.
Qed.

(** A patch that raises the flag and sets the timestamp leaves any row
    consistent. *)
Lemma patch_consistent p r t :
  p !! "deleted" = Some (VBool true) →
  p !! "deletedOn" = Some (VDate t) →
  consistent (MemStore.patch p r) = true.
Proof.
  intros Hd Ho. unfold consistent, tombstoned, deletedOnSet, MemStore.patch.
  rewrite (lookup_union_Some_l p r _ _ Hd), (lookup_union_Some_l p r _ _ Ho).
  by rewrite bool_decide_eq_true_2.
Qed.

Lemma patchWhere_consistent (sel : Entity → bool) p rows t :
  p !! "deleted" = Some (VBool true) →
  p !! "deletedOn" = Some (VDate t) →
  Forall (λ e, consistent e = true) rows →
  Forall (λ e, consistent e = true) (MemStore.patchWhere sel p rows).
Proof.
  intros Hd Ho Hrows. unfold MemStore.patchWhere.
  apply Forall_fmap. eapply Forall_impl; [exact Hrows|].
  intros e He. simpl. destruct (sel e); [|done].
  by apply (patch_consistent p e t).
Qed.

Lemma filter_nil_existsb {A} (q : A → bool) (l : list A) :
  existsb q l = false → List.filter q l = [].
Proof.
  induction l as [|x l IH]; [done|]. simpl.
  destruct (q x); [done|]. exact IH.
Qed.

Lemma filter_cons_existsb {A} (q : A → bool) (l : list A) :
  existsb q l = true → ∃ x l', List.filter q l = x :: l'.
Proof.
  induction l as [|x l IH]; [done|]. simpl.
  destruct (q x); [by eauto|]. exact IH.
Qed.

Lemma patchWhere_none (sel : Entity → bool) p rows :
  existsb sel rows = false → MemStore.patchWhere sel p rows = rows.
Proof.
  unfold MemStore.patchWhere.
  induction rows as [|r rows IH]; [done|]. simpl.
  destruct (sel r); [done|]. simpl. intros H. by rewrite IH.
Qed.

(** What the inherited [updateById] does on the table: it patches the
    rows with the id that are not tombstoned, and rejects when there is
    none. *)
Lemma updateById_table (i : JsVal) p (options : option Options) rows :
  MemStore.updateById i p options rows
  = if existsb (liveWithId i) rows
    then (Ok (), MemStore.patchWhere (liveWithId i) p rows)
    else (Throw (StoreError "ENTITY_NOT_FOUND" i), rows).
Proof.
  unfold MemStore.updateById, MemStore.updateAll, MemStore.patchWhere.
  rewrite (filter_ext _ (liveWithId i));
    [|intros e; apply (selects_produceSoftDeleteWhere e)].
  rewrite (map_ext _ (λ e, if liveWithId i e then MemStore.patch p e else e));
    [|intros e; by rewrite (selects_produceSoftDeleteWhere e)].
  destruct (existsb (liveWithId i) rows) eqn:Hex.
  - by destruct (filter_cons_existsb _ _ Hex) as (x & l' & ->).
  - rewrite (filter_nil_existsb _ _ Hex). simpl. unfold MemStore.notFound.
    f_equal. by apply (patchWhere_none (liveWithId i)).
Qed.

(** The inherited [updateById] on the table is the call of the
    overridden [updateAll] with the where clause [{id}]. *)
Lemma updateById_dispatches {Ctx} (i : JsVal) p (options : option Options)
    (w : World (list Entity) Ctx) :
  MemStore.updateById i p options (db w)
  = match SoftCrud.updateAll p (Some (WEq "id" i)) options w with
    | (Ok (mkCount 0), w') => MemStore.notFound i (db w')
    | (Ok _, w') => (Ok (), db w')
    | (Throw err, w') => (Throw err, db w')
    end.
Proof.
  unfold SoftCrud.updateAll, super, MemStore.updateById. simpl.
  unfold MemStore.updateAll. simpl.
  by destruct (length _).
Qed.

(** Updating an entity by its own id moves no id. *)
Lemma patch_own_id p r :
  MemStore.hasId (getId p) r = true →
  MemStore.patch p r !! "id" = r !! "id".
Proof.
  unfold MemStore.hasId, getId, MemStore.patch.
  intros H%bool_decide_eq_true.
  destruct (p !! "id") as [v|] eqn:Hp; simpl in H.
  - rewrite H. by apply lookup_union_Some_l.
  - by rewrite lookup_union_r.
Qed.

Lemma update_idColumn p (options : option Options) rows :
  idColumn (MemStore.update p options rows).2 = idColumn rows.
Proof.
  unfold MemStore.update. rewrite updateById_table.
  destruct (existsb _ rows); [|done]. simpl.
  unfold idColumn, MemStore.patchWhere. rewrite map_map.
  apply map_ext_in. intros r _. unfold liveWithId.
  destruct (MemStore.hasId (getId p) r) eqn:Hr; [|done].
  destruct (live r); [|done]. by apply patch_own_id.
Qed.
End Tombstones.

(** What [deleteAll] does to the in-memory table. *)
Lemma deleteAll_table {Ctx} (this : Repository Ctx) (whr : option Where)
    (options : option Options) (w : World (list Entity) Ctx) :
  SoftCrud.deleteAll this whr options w
  = (Ok (mkCount (length (List.filter (hit whr) (db w)))),
     mkWorld (heap w)
       (map (λ e, if hit whr e
                  then MemStore.patch (tombstone (VDate (now w)) (actor this w)) e
                  else e) (db w))
       (now w) (ctx w)).
Proof.
  rewrite deleteAll_run, updateAll_run. unfold super. simpl.
  unfold MemStore.updateAll, MemStore.patchWhere. f_equal; [do 3 f_equal|f_equal].
  - apply filter_ext. intros e. apply (selects_produceSoftDeleteWhere e).
  - apply map_ext. intros e.
    change (MemStore.holds e (produceSoftDeleteWhere whr))
      with (MemStore.selects (Some (produceSoftDeleteWhere whr)) e).
    by rewrite selects_produceSoftDeleteWhere.
Qed.

(** C3: [deleteAll(w)] builds one patch, from one timestamp and one
    resolved actor, and hands it to the layer's own [updateAll], which
    hands it to the underlying updateAll under the where clause augmented
    with the exclusion.  On the in-memory table the rows that change are
    the non-tombstoned matches of [w], each merged with that one patch;
    the returned count is their number; a tombstoned row is never among
    them. *)
Theorem deleteAll_stamps_live_matches :
  (∀ (DB : Type) (S : CrudStore DB) (Ctx : Type) (this : Repository Ctx)
     (whr : option Where) (options : option Options) (w : World DB Ctx),
     SoftCrud.deleteAll this whr options w
     = SoftCrud.updateAll (tombstone (VDate (now w)) (actor this w)) whr options w
     ∧ SoftCrud.updateAll (tombstone (VDate (now w)) (actor this w)) whr options w
       = super (super_updateAll (tombstone (VDate (now w)) (actor this w))
                  (Some (produceSoftDeleteWhere whr)) options) w)
  ∧ (∀ (Ctx : Type) (this : Repository Ctx) (whr : option Where)
       (options : option Options) (w : World (list Entity) Ctx),
       SoftCrud.deleteAll this whr options w
       = (Ok (mkCount (length (List.filter (hit whr) (db w)))),
          mkWorld (heap w)
            (map (λ e, if hit whr e
                       then MemStore.patch
                              (tombstone (VDate (now w)) (actor this w)) e
                       else e) (db w))
            (now w) (ctx w)))
  ∧ (∀ (whr : option Where) (e : Entity),
       hit whr e = (MemStore.selects whr e && live e)
       ∧ (tombstoned e = true → hit whr e = false)).
Proof.
  split; [|split].
  - intros. split; [apply deleteAll_run|apply updateAll_run].
  - intros. apply deleteAll_table.
  - intros whr e. split; [done|apply tombstoned_hit].
Qed.

(** The scenario of three live and two tombstoned pending rows. *)
Lemma deleteAll_stamps_live_matches_witness :
  (SoftCrud.deleteAll Sample.withAccessor (Some Sample.pending) None Sample.w5).1
  = Ok (mkCount 3)
  ∧ map tombstoned
        (db (SoftCrud.deleteAll Sample.withAccessor (Some Sample.pending) None
               Sample.w5).2)
    = [true; true; true; true; true]
  ∧ map (λ e, e !! "deletedOn")
        (db (SoftCrud.deleteAll Sample.withAccessor (Some Sample.pending) None
               Sample.w5).2)
    = [Some (VDate 10); Some (VDate 5); Some (VDate 10); Some (VDate 7);
       Some (VDate 10)]
  ∧ map (λ e, e !! "deletedBy")
        (db (SoftCrud.deleteAll Sample.withAccessor (Some Sample.pending) None
               Sample.w5).2)
    = [Some (VStr "u1"); None; Some (VStr "u1"); None; Some (VStr "u1")].
Proof.
  rewrite (proj1 (proj2 deleteAll_stamps_live_matches) _ Sample.withAccessor
             (Some Sample.pending) None Sample.w5).
  repeat split; vm_compute; reflexivity.
Defined.

(** C4: [delete(entity)] changes, in the caller's object, the three
    tombstone properties and nothing else: [deleted] becomes [true],
    [deletedOn] the current time, [deletedBy] the resolved actor (the
    string [s] when the accessor yields a user whose id is the non-empty
    string [s], such as ["u1"]); no other object of the caller changes;
    the object is then handed to the underlying update.  On the in-memory
    table no row disappears and no id moves. *)
Theorem delete_stamps_the_entity :
  (∀ (DB : Type) (S : CrudStore DB) (Ctx : Type) (this : Repository Ctx)
     (entity : loc) (options : option Options) (w : World DB Ctx) (e : Entity),
     heap w !! entity = Some e →
     ∃ e' : Entity,
       heap (SoftCrud.delete this entity options w).2 = <[entity := e']> (heap w)
       ∧ e' !! "deleted" = Some (VBool true)
       ∧ e' !! "deletedOn" = Some (VDate (now w))
       ∧ e' !! "deletedBy" = Some (ofUserId (actor this w))
       ∧ (∀ k, k ∉ tombstoneKeys → e' !! k = e !! k)
       ∧ (∀ getter u s,
            getCurrentUser this = Some getter → getter (ctx w) = Some u →
            id u = IdStr s → s ≠ "" → e' !! "deletedBy" = Some (VStr s))
       ∧ SoftCrud.delete this entity options w
         = (let '(r, d) := super_update e' options (db w) in
            (r, mkWorld (<[entity := e']> (heap w)) d (now w) (ctx w))))
  ∧ (∀ (Ctx : Type) (this : Repository Ctx) (entity : loc)
       (options : option Options) (w : World (list Entity) Ctx),
       idColumn (db (SoftCrud.delete this entity options w).2) = idColumn (db w)).
Proof.
  split.
  - intros DB S Ctx this entity options w e He.
    exists (stamped e (now w) (actor this w)).
    pose proof (delete_run this entity options w e He) as Hrun.
    split; [|split; [|split; [|split; [|split; [|split]]]]].
    + rewrite Hrun. simpl. by destruct (super_update _ _ _).
    + apply stamped_deleted.
    + apply stamped_deletedOn.
    + apply stamped_deletedBy.
    + intros k. apply stamped_other.
    + intros getter u s Hg Hu Hid Hs. rewrite stamped_deletedBy.
      unfold actor, resolvedUser. rewrite Hg, Hu. simpl. rewrite Hid. simpl.
      destruct (String.eqb_spec s ""); [done|reflexivity].
    + exact Hrun.
  - intros Ctx this entity options w.
    destruct (heap w !! entity) as [e|] eqn:He.
    + rewrite (delete_run this entity options w e He). simpl.
      pose proof (update_idColumn (stamped e (now w) (actor this w)) options (db w)) as H.
      destruct (MemStore.update _ _ _) as [r d]. exact H.
    + by rewrite (delete_dangling this entity options w He).
Qed.

Lemma delete_stamps_the_entity_witness :
  ∃ e' : Entity,
    heap (SoftCrud.delete Sample.withAccessor 1%positive None Sample.wU1).2
    = <[1%positive := e']> (heap Sample.wU1)
    ∧ e' !! "deleted" = Some (VBool true)
    ∧ e' !! "deletedOn" = Some (VDate 10)
    ∧ e' !! "deletedBy" = Some (VStr "u1")
    ∧ e' !! "status" = Some (VStr "pending").
Proof.
  destruct (proj1 delete_stamps_the_entity _ _ _ Sample.withAccessor
              1%positive None Sample.wU1 (Sample.row 1 "pending" false))
    as (e' & Hheap & Hd & Ho & _ & Hframe & Hu1 & _).
  { vm_compute. reflexivity. }
  exists e'. split; [exact Hheap|]. split; [exact Hd|]. split; [exact Ho|].
  split.
  - apply (Hu1 (λ c, c) Sample.u1 "u1"); [reflexivity..|discriminate].
  - rewrite Hframe; [vm_compute; reflexivity|].
    unfold tombstoneKeys. intros Hk.
    repeat (apply elem_of_cons in Hk as [Hk|Hk]; [discriminate|]).
    by apply elem_of_nil in Hk.
Defined.

Lemma updateById_consistent (i : JsVal) (p : DataObject)
    (options : option Options) (rows : list Entity) (t : Z) :
  p !! "deleted" = Some (VBool true) →
  p !! "deletedOn" = Some (VDate t) →
  Forall (λ e, consistent e = true) rows →
  Forall (λ e, consistent e = true) (MemStore.updateById i p options rows).2.
Proof.
  intros Hd Ho Hrows. rewrite updateById_table.
  destruct (existsb _ rows); [|done]. simpl.
  by apply (patchWhere_consistent _ p rows t).
Qed.

(** C6: each soft delete raises [deleted] and sets [deletedOn] in one and
    the same patch, whatever [deletedBy] turns out to be: [deleteAll] and
    [deleteById] hand the underlying store a patch holding both, and
    [delete] leaves both in the caller's object before handing it over.
    On the in-memory table, if every row has [deleted = true] exactly
    when [deletedOn] is set, this is still so after [delete], [deleteAll]
    and [deleteById]. *)
Theorem soft_deletes_keep_consistency :
  (∀ (t : Z) (a : option string) (e : Entity),
     tombstone (VDate t) a !! "deleted" = Some (VBool true)
     ∧ tombstone (VDate t) a !! "deletedOn" = Some (VDate t)
     ∧ tombstone (VDate t) a !! "deletedBy" = Some (ofUserId a)
     ∧ consistent (MemStore.patch (tombstone (VDate t) a) e) = true)
  ∧ (∀ (DB : Type) (S : CrudStore DB) (Ctx : Type) (this : Repository Ctx)
       (options : option Options) (w : World DB Ctx),
       (∀ whr, SoftCrud.deleteAll this whr options w
               = super (super_updateAll (tombstone (VDate (now w)) (actor this w))
                          (Some (produceSoftDeleteWhere whr)) options) w)
       ∧ (∀ i, SoftCrud.deleteById this i options w
               = super (super_updateById i
                          (tombstone (VDate (now w)) (actor this w)) options) w)
       ∧ (∀ entity e, heap w !! entity = Some e →
            ∃ e', heap (SoftCrud.delete this entity options w).2 !! entity = Some e'
                  ∧ tombstoned e' = true ∧ deletedOnSet e' = true
                  ∧ (SoftCrud.delete this entity options w).1
                    = (super_update e' options (db w)).1))
  ∧ (∀ (Ctx : Type) (this : Repository Ctx) (options : option Options)
       (w : World (list Entity) Ctx),
       Forall (λ e, consistent e = true) (db w) →
       (∀ entity, Forall (λ e, consistent e = true)
                    (db (SoftCrud.delete this entity options w).2))
       ∧ (∀ whr, Forall (λ e, consistent e = true)
                   (db (SoftCrud.deleteAll this whr options w).2))
       ∧ (∀ i, Forall (λ e, consistent e = true)
                 (db (SoftCrud.deleteById this i options w).2))).
Proof.
  split; [|split].
  - intros t a e. split; [apply tombstone_deleted|].
    split; [apply tombstone_deletedOn|]. split; [apply tombstone_deletedBy|].
    apply (patch_consistent _ e t);
      [apply tombstone_deleted|apply tombstone_deletedOn].
  - intros DB S Ctx this options w. split; [|split].
    + intros whr. by rewrite deleteAll_run, updateAll_run.
    + intros i. apply deleteById_run.
    + intros entity e He. exists (stamped e (now w) (actor this w)).
      rewrite (delete_run this entity options w e He). simpl.
      destruct (super_update _ _ _) as [r d]. simpl.
      rewrite lookup_insert_eq. split; [done|].
      unfold tombstoned, deletedOnSet.
      rewrite stamped_deleted, stamped_deletedOn.
      by rewrite bool_decide_eq_true_2.
  - intros Ctx this options w Hrows. split; [|split].
    + intros entity. destruct (heap w !! entity) as [e|] eqn:He.
      * rewrite (delete_run this entity options w e He). simpl.
        pose proof (updateById_consistent
                      (getId (stamped e (now w) (actor this w)))
                      (stamped e (now w) (actor this w)) options (db w) (now w)
                      (stamped_deleted _ _ _) (stamped_deletedOn _ _ _) Hrows) as H.
        change (MemStore.updateById (getId ?p) ?p ?o ?r)
          with (MemStore.update p o r) in H.
        destruct (MemStore.update _ _ _) as [r d]. exact H.
      * by rewrite (delete_dangling this entity options w He).
    + intros whr. rewrite deleteAll_run, updateAll_run. unfold super. simpl.
      apply (patchWhere_consistent _ _ _ (now w));
        [apply tombstone_deleted|apply tombstone_deletedOn|exact Hrows].
    + intros i. rewrite deleteById_run. unfold super. simpl.
      pose proof (updateById_consistent i
                    (tombstone (VDate (now w)) (actor this w)) options (db w)
                    (now w) (tombstone_deleted _ _) (tombstone_deletedOn _ _)
                    Hrows) as H.
      destruct (MemStore.updateById _ _ _ _) as [r d]. exact H.
Qed.

Lemma soft_deletes_keep_consistency_witness :
  Forall (λ e, consistent e = true) (db Sample.w5)
  ∧ Forall (λ e, consistent e = true)
      (db (SoftCrud.deleteById Sample.withAccessor (VNum 3) None Sample.w5).2).
Proof.
  assert (Forall (λ e, consistent e = true) (db Sample.w5)) as H.
  { repeat constructor; vm_compute; reflexivity. }
  split; [exact H|].
  apply (proj2 (proj2 soft_deletes_keep_consistency) _ Sample.withAccessor
           None Sample.w5 H).
Defined.

(** ** Soft deletes on the in-memory table *)

Section Stamping.
Context {Ctx : Type}.
Implicit Types (w : World (list Entity) Ctx) (e r p : Entity) (rows : list Entity).

Lemma lookup_map {A B} (f : A → B) (l : list A) (n : nat) :
  map f l !! n = f <$> (l !! n).
Proof.
  revert n. induction l as [|x l IH]; intros [|n]; simpl; by try apply IH.
Qed.

Lemma elem_of_filter_bool {A} (p : A → bool) (l : list A) (x : A) :
  x ∈ List.filter p l ↔ x ∈ l ∧ p x = true.
Proof. rewrite !list_elem_of_In. apply filter_In. Qed.

Lemma live_patch_dead p e :
  p !! "deleted" = Some (VBool true) → live (MemStore.patch p e) = false.
Proof.
  intros Hd. unfold live, MemStore.patch.
  rewrite (lookup_union_Some_l p e _ _ Hd). by apply bool_decide_eq_false.
Qed.

(** Once the live rows with an id are patched with a raised flag, no row
    with that id is live. *)
Lemma patchWhere_liveWithId_dead p (i : JsVal) rows e :
  p !! "deleted" = Some (VBool true) →
  e ∈ MemStore.patchWhere (liveWithId i) p rows →
  MemStore.hasId i e = true → live e = false.
Proof.
  intros Hd He Hi. unfold MemStore.patchWhere in He.
  apply list_elem_of_In, in_map_iff in He as (e0 & <- & _).
  destruct (liveWithId i e0) eqn:H0; [by apply live_patch_dead|].
  unfold liveWithId in H0. rewrite Hi in H0. exact H0.
Qed.

(** A by-id lookup sees nothing when no row with the id is live. *)
Lemma findById_hidden (i : JsVal) (flt : option Filter) options w :
  (∀ e, e ∈ db w → MemStore.hasId i e = true → live e = false) →
  SoftCrud.findById i flt options w = (Throw (HttpNotFound EntityNotFound), w).
Proof.
  intros Hdead.
  rewrite (findById_missing i flt options w (db w)); [by rewrite world_eta|].
  simpl. unfold MemStore.findOne. f_equal.
  change (Some (produceSoftDeleteFilter flt (Some [("id", i)])) ≫= where_)
    with (where_ (produceSoftDeleteFilter flt (Some [("id", i)]))).
  rewrite filter_nil_iff; [by rewrite drop_nil|].
  intros e He. simpl.
  pose proof (holds_rewritten e (flt ≫= where_) [("id", i)]) as H.
  simpl in H |- *. rewrite H, andb_true_r.
  destruct (bool_decide (e !! "id" = Some i)) eqn:Hi; [|by rewrite andb_false_r].
  rewrite (Hdead e He Hi). by rewrite andb_false_r.
Qed.

Lemma patchWhere_lookup_other (sel : Entity → bool) p rows (n : nat) r :
  rows !! n = Some r → sel r = false →
  MemStore.patchWhere sel p rows !! n = Some r.
Proof.
  intros Hr Hs. unfold MemStore.patchWhere. rewrite lookup_map, Hr. simpl.
  by rewrite Hs.
Qed.

Lemma patchWhere_lookup_hit (sel : Entity → bool) p rows (n : nat) r :
  rows !! n = Some r → sel r = true →
  MemStore.patchWhere sel p rows !! n = Some (MemStore.patch p r).
Proof.
  intros Hr Hs. unfold MemStore.patchWhere. rewrite lookup_map, Hr. simpl.
  by rewrite Hs.
Qed.

Lemma find_map_stable {A} (q : A → bool) (f : A → A) (l : list A) :
  (∀ x, q (f x) = q x) → List.find q (map f l) = f <$> List.find q l.
Proof.
  intros Hq. induction l as [|x l IH]; [done|]. simpl.
  rewrite Hq. by destruct (q x).
Qed.

Lemma hasId_patch_noid p (i : JsVal) e :
  p !! "id" = None → MemStore.hasId i (MemStore.patch p e) = MemStore.hasId i e.
Proof.
  intros Hp. unfold MemStore.hasId, MemStore.patch. by rewrite lookup_union_r.
Qed.

Lemma tombstone_id d a : tombstone d a !! "id" = None.
Proof. unfold tombstone. by rewrite !lookup_insert_ne. Qed.

Lemma existsb_find_Some {A} (q : A → bool) (l : list A) :
  existsb q l = true → ∃ x, List.find q l = Some x ∧ q x = true.
Proof.
  induction l as [|x l IH]; [done|]. simpl.
  destruct (q x) eqn:Hx; [by exists x|]. exact IH.
Qed.

Lemma existsb_weaken {A} (q q' : A → bool) (l : list A) :
  (∀ x, q x = true → q' x = true) → existsb q l = true → existsb q' l = true.
Proof.
  intros Hq. induction l as [|x l IH]; [done|]. simpl.
  destruct (q x) eqn:Hx; [by rewrite (Hq x Hx)|].
  intros H. rewrite (IH H). apply orb_true_r.
Qed.

Lemma existsb_false_weaken {A} (q q' : A → bool) (l : list A) :
  (∀ x, q x = true → q' x = true) → existsb q' l = false → existsb q l = false.
Proof.
  intros Hq H. destruct (existsb q l) eqn:Hex; [|done].
  by rewrite (existsb_weaken q q' l Hq Hex) in H.
Qed.

Lemma existsb_dead (q : Entity → bool) rows :
  (∀ e, e ∈ rows → q e = false) → existsb q rows = false.
Proof.
  induction rows as [|r rows IH]; [done|]. intros H. simpl.
  rewrite (H r) by apply list_elem_of_here.
  apply IH. intros e He. apply H. by apply list_elem_of_further.
Qed.

Lemma getId_stamped e t a : getId (stamped e t a) = getId e.
Proof.
  unfold getId. rewrite stamped_other; [done|].
  unfold tombstoneKeys. intros Hk.
  repeat (apply elem_of_cons in Hk as [Hk|Hk]; [discriminate|]).
  by apply elem_of_nil in Hk.
Qed.

(** [deleteById] on the table, for whatever actor was resolved. *)
Lemma deleteById_table (this : Base.Repository Ctx) (i : JsVal) options w a :
  resolution this None (ctx w) = Ok a →
  SoftCrud.deleteById this i options w
  = if existsb (liveWithId i) (db w)
    then (Ok (),
          mkWorld (heap w)
            (MemStore.patchWhere (liveWithId i) (tombstone (VDate (now w)) a)
               (db w))
            (now w) (ctx w))
    else (Throw (StoreError "ENTITY_NOT_FOUND" i), w).
Proof.
  intros Ha. rewrite (deleteById_resolved this i options w a Ha).
  unfold super. simpl. rewrite updateById_table.
  destruct (existsb _ (db w)); [done|]. by rewrite world_eta.
Qed.

(** [delete] on the table, for whatever actor was resolved. *)
Lemma delete_table (this : Base.Repository Ctx) (entity : loc) options w e a :
  heap w !! entity = Some e →
  resolution this None (ctx w) = Ok a →
  SoftCrud.delete this entity options w
  = if existsb (liveWithId (getId e)) (db w)
    then (Ok (),
          mkWorld (<[entity := stamped e (now w) a]> (heap w))
            (MemStore.patchWhere (liveWithId (getId e)) (stamped e (now w) a)
               (db w))
            (now w) (ctx w))
    else (Throw (StoreError "ENTITY_NOT_FOUND" (getId e)),
          mkWorld (<[entity := stamped e (now w) a]> (heap w))
            (db w) (now w) (ctx w)).
Proof.
  intros He Ha. rewrite (delete_resolved this entity options w e a He Ha).
  simpl. unfold MemStore.update. rewrite updateById_table, getId_stamped.
  by destruct (existsb _ (db w)).
Qed.
End Stamping.

(** ** Identity *)

Lemma noIdentity_resolution {Ctx} (this : Base.Repository Ctx)
    (options : option Options) (c : Ctx) :
  noIdentity this c = true → resolution this None c = Ok None.
Proof.
  unfold noIdentity, resolution.
  destruct (Base.getCurrentUser this) as [getter|]; [|done].
  destruct (getter c) as [[u|]|err]; [|done|done]. simpl.
  by intros ->%negb_true_iff.
Qed.

(** C7, as stated, fails: an accessor that rejects makes [getUserId]
    reject, and the soft delete with it, the record staying as it was;
    and without any accessor, [deleteById(1)] of an already tombstoned
    record does not complete but rejects with the store's not-found
    error. *)
Lemma rejecting_accessor_blocks_the_delete :
  SoftCrud.getUserId Sample.rejecting None Sample.wRec1
  = (Throw Sample.unbound, Sample.wRec1)
  ∧ SoftCrud.deleteById Sample.rejecting (VNum 1) None Sample.wRec1
    = (Throw Sample.unbound, Sample.wRec1)
  ∧ SoftCrud.deleteById Sample.noAccessor (VNum 1) None Sample.wDead1
    = (Throw (StoreError "ENTITY_NOT_FOUND" (VNum 1)), Sample.wDead1).
Proof. repeat split; vm_compute; reflexivity. Qed.

(** C7, amended: [getUserId] changes nothing and rejects only when the
    accessor itself rejects, with the accessor's error.  When there is no
    accessor, or the accessor yields no user, or the user it yields has a
    falsy id, [getUserId()] returns [undefined] and each soft delete goes
    on to its call into the underlying store with [deletedBy = undefined]
    and ends as that call ends.  On the in-memory table, [deleteById(i)]
    without accessor, on a table holding a non-tombstoned row with id
    [i], completes and merges
    [{deleted: true, deletedOn: now, deletedBy: undefined}] into the
    non-tombstoned rows with that id. *)
Theorem missing_identity_never_blocks :
  (∀ (DB : Type) (S : CrudStore DB) (Ctx : Type) (this : Base.Repository Ctx)
     (options : option Options) (w : World DB Ctx),
     (SoftCrud.getUserId this options w).2 = w
     ∧ (∀ err, (SoftCrud.getUserId this options w).1 = Throw err
               ↔ ∃ getter, Base.getCurrentUser this = Some getter
                           ∧ getter (ctx w) = Throw err))
  ∧ (∀ (DB : Type) (S : CrudStore DB) (Ctx : Type) (this : Base.Repository Ctx)
       (options : option Options) (w : World DB Ctx),
       noIdentity this (ctx w) = true →
       SoftCrud.getUserId this None w = (Ok None, w)
       ∧ (∀ entity e, heap w !! entity = Some e →
            SoftCrud.delete this entity options w
            = (let '(r, d) := super_update (stamped e (now w) None) options (db w) in
               (r, mkWorld (<[entity := stamped e (now w) None]> (heap w))
                     d (now w) (ctx w)))
            ∧ stamped e (now w) None !! "deletedBy" = Some VUndefined)
       ∧ (∀ whr, SoftCrud.deleteAll this whr options w
                 = super (super_updateAll (tombstone (VDate (now w)) None)
                            (Some (produceSoftDeleteWhere whr)) options) w)
       ∧ (∀ i, SoftCrud.deleteById this i options w
               = super (super_updateById i (tombstone (VDate (now w)) None)
                          options) w)
       ∧ tombstone (VDate (now w)) None !! "deletedBy" = Some VUndefined)
  ∧ (∀ (Ctx : Type) (this : Base.Repository Ctx) (i : JsVal)
       (options : option Options) (w : World (list Entity) Ctx),
       Base.getCurrentUser this = None →
       existsb (liveWithId i) (db w) = true →
       SoftCrud.deleteById this i options w
       = (Ok (),
          mkWorld (heap w)
            (map (λ e, if liveWithId i e
                       then MemStore.patch (tombstone (VDate (now w)) None) e
                       else e) (db w))
            (now w) (ctx w))).
Proof.
  split; [|split].
  - intros DB S Ctx this options w. rewrite getUserId_resolution. simpl.
    split; [done|]. intros err. unfold resolution.
    destruct (Base.getCurrentUser this) as [getter|].
    + split.
      * intros H. exists getter. split; [done|].
        destruct (getter (ctx w)) as [[u|]|err']; congruence.
      * intros (g & [= <-] & ->). done.
    + split; [done|]. by intros (g & Hg & _).
  - intros DB S Ctx this options w Hno.
    pose proof (noIdentity_resolution this None (ctx w) Hno) as Ha.
    split; [|split; [|split; [|split]]].
    + by rewrite getUserId_resolution, Ha.
    + intros entity e He. split; [|apply stamped_deletedBy].
      apply (delete_resolved this entity options w e None He Ha).
    + intros whr. by rewrite (deleteAll_resolved this whr options w None Ha).
    + intros i. apply (deleteById_resolved this i options w None Ha).
    + apply tombstone_deletedBy.
  - intros Ctx this i options w Hg Hi.
    rewrite (deleteById_table this i options w None), Hi; [done|].
    unfold resolution. by rewrite Hg.
Qed.

(** The scenario [{id: 1, deleted: false}], [deleteById(1)], no accessor. *)
Lemma missing_identity_never_blocks_witness :
  Base.getCurrentUser Sample.noAccessor = None
  ∧ existsb (liveWithId (VNum 1)) (db Sample.wRec1) = true
  ∧ SoftCrud.deleteById Sample.noAccessor (VNum 1) None Sample.wRec1
    = (Ok (),
       Sample.world
         [<["id" := VNum 1]> (<["deleted" := VBool true]>
            (<["deletedOn" := VDate 10]> (<["deletedBy" := VUndefined]> ∅)))]
         ∅ 10 None).
Proof.
  split; [reflexivity|]. split; [vm_compute; reflexivity|].
  rewrite (proj2 (proj2 missing_identity_never_blocks) _ Sample.noAccessor
             (VNum 1) None Sample.wRec1);
    [vm_compute; reflexivity|reflexivity|vm_compute; reflexivity].
Defined.

(** C8 fails on the code: [getUserId] does fall back to the
    [currentUser] of the options it receives, but [delete], [deleteAll]
    and [deleteById] call it without their options.  With an accessor
    that yields no user and options carrying user ["u1"], each of the
    three records [deletedBy = undefined]. *)
Theorem options_currentUser_is_dropped :
  (SoftCrud.getUserId Sample.withAccessor (Some Sample.optsU1) Sample.wAnon).1
  = Ok (Some "u1")
  ∧ (heap (SoftCrud.delete Sample.withAccessor 1%positive
             (Some Sample.optsU1) Sample.wAnon).2 !! 1%positive)
      ≫= (λ e : Entity, e !! "deletedBy")
    = Some VUndefined
  ∧ map (λ e : Entity, e !! "deletedBy")
        (db (SoftCrud.delete Sample.withAccessor 1%positive
               (Some Sample.optsU1) Sample.wAnon).2)
    = [Some VUndefined]
  ∧ map (λ e : Entity, e !! "deletedBy")
        (db (SoftCrud.deleteAll Sample.withAccessor None
               (Some Sample.optsU1) Sample.wAnon).2)
    = [Some VUndefined]
  ∧ map (λ e : Entity, e !! "deletedBy")
        (db (SoftCrud.deleteById Sample.withAccessor (VNum 1)
               (Some Sample.optsU1) Sample.wAnon).2)
    = [Some VUndefined].
Proof. repeat split; vm_compute; reflexivity. Qed.


(** C10: when the accessor yields a user, the actor [getUserId()]
    returns is [id.toString()] if the id is truthy and [undefined] if it
    is falsy, and this is what each soft delete records in [deletedBy];
    the same holds of [getUserId(options)] for the user taken from the
    options when the accessor yields none.  A non-zero safe integer is
    recorded as its decimal numeral, the number 42 as ["42"]; any other
    non-zero number as the numeral JavaScript prints for it; the ids [0],
    [NaN], [""], [null] and [undefined] count as no actor. *)
Theorem deletedBy_is_id_toString :
  (∀ (DB : Type) (S : CrudStore DB) (Ctx : Type) (this : Base.Repository Ctx)
     (getter : Base.Getter Ctx (option IAuthUser)) (u : IAuthUser)
     (options : option Options) (w : World DB Ctx),
     Base.getCurrentUser this = Some getter →
     getter (ctx w) = Ok (Some u) →
     SoftCrud.getUserId this None w
     = (Ok (if truthy (id u) then toString (id u) else None), w)
     ∧ (∀ entity e, heap w !! entity = Some e →
          ∃ e', heap (SoftCrud.delete this entity options w).2 !! entity = Some e'
                ∧ e' !! "deletedBy"
                  = Some (ofUserId (if truthy (id u) then toString (id u) else None)))
     ∧ (∀ whr, SoftCrud.deleteAll this whr options w
               = super (super_updateAll
                          (tombstone (VDate (now w))
                             (if truthy (id u) then toString (id u) else None))
                          (Some (produceSoftDeleteWhere whr)) options) w)
     ∧ (∀ i, SoftCrud.deleteById this i options w
             = super (super_updateById i
                        (tombstone (VDate (now w))
                           (if truthy (id u) then toString (id u) else None))
                        options) w)
     ∧ (∀ d a, tombstone d a !! "deletedBy" = Some (ofUserId a)))
  ∧ (∀ (DB : Type) (S : CrudStore DB) (Ctx : Type) (this : Base.Repository Ctx)
       (getter : Base.Getter Ctx (option IAuthUser)) (u : IAuthUser)
       (options : option Options) (w : World DB Ctx),
       Base.getCurrentUser this = Some getter →
       getter (ctx w) = Ok None →
       options ≫= currentUser = Some u →
       SoftCrud.getUserId this options w
       = (Ok (if truthy (id u) then toString (id u) else None), w))
  ∧ (∀ (n : Z) (safe : Is_true (safeInteger n)), n ≠ 0%Z →
       truthy (IdNum n safe) = true
       ∧ toString (IdNum n safe) = Some (pretty n))
  ∧ (∀ numeral : string,
       truthy (IdFloat numeral) = true
       ∧ toString (IdFloat numeral) = Some numeral)
  ∧ (∀ s : string, s ≠ "" →
       truthy (IdStr s) = true ∧ toString (IdStr s) = Some s)
  ∧ toString (IdNum 42 I) = Some "42"
  ∧ toString (IdNum (-7) I) = Some "-7"
  ∧ (∀ safe, truthy (IdNum 0 safe) = false)
  ∧ truthy IdNaN = false
  ∧ truthy (IdStr "") = false
  ∧ truthy IdNull = false
  ∧ truthy IdUndefined = false.
Proof.
  split; [|split; [|split; [|split; [|split]]]].
  - intros DB S Ctx this getter u options w Hg Hu.
    assert (resolution this None (ctx w)
            = Ok (if truthy (id u) then toString (id u) else None)) as Ha.
    { unfold resolution. by rewrite Hg, Hu. }
    split; [|split; [|split; [|split]]].
    + by rewrite getUserId_resolution, Ha.
    + intros entity e He. eexists.
      rewrite (delete_resolved this entity options w e _ He Ha). simpl.
      destruct (super_update _ _ _) as [r d]. simpl.
      rewrite lookup_insert_eq. split; [done|].
      apply stamped_deletedBy.
    + intros whr. by rewrite (deleteAll_resolved this whr options w _ Ha).
    + intros i. apply (deleteById_resolved this i options w _ Ha).
    + apply tombstone_deletedBy.
  - intros DB S Ctx this getter u options w Hg Hnone Hu.
    rewrite getUserId_resolution. unfold resolution.
    by rewrite Hg, Hnone, Hu.
  - intros n safe Hn. split; [|done]. simpl.
    by destruct (Z.eqb_spec n 0).
  - done.
  - intros s Hs. split; [|done]. simpl.
    by destruct (String.eqb_spec s "").
  - repeat split; vm_compute; reflexivity.
Qed.

(** The user with id 42 deletes row 1: the row records ["42"]. *)
Lemma deletedBy_is_id_toString_witness :
  Base.getCurrentUser Sample.withAccessor = Some (λ c, Ok c)
  ∧ Ok (ctx Sample.wU42) = Ok (Some Sample.u42)
  ∧ map (λ e : Entity, e !! "deletedBy")
        (db (SoftCrud.deleteById Sample.withAccessor (VNum 1) None Sample.wU42).2)
    = [Some (VStr "42")].
Proof.
  split; [reflexivity|]. split; [reflexivity|].
  destruct (proj1 deletedBy_is_id_toString _ _ _ Sample.withAccessor
              (λ c, Ok c) Sample.u42 None Sample.wU42 eq_refl eq_refl)
    as (_ & _ & _ & Hby & _).
  rewrite (Hby (VNum 1)). vm_compute. reflexivity.
Defined.

(** C9, as stated, fails: after a first [delete] by user ["u1"] at time
    10, a second [delete] of the same object by user 42 at time 20 is
    rejected with the store's not-found error, and the stored row keeps
    the time and the actor of the first call. *)
Lemma second_delete_is_rejected :
  (SoftCrud.delete Sample.withAccessor 1%positive None Sample.wLater).1
  = Throw (StoreError "ENTITY_NOT_FOUND" (VNum 1))
  ∧ map (λ e : Entity, (e !! "deleted", e !! "deletedOn", e !! "deletedBy"))
        (db (SoftCrud.delete Sample.withAccessor 1%positive None
               Sample.wLater).2)
    = [(Some (VBool true), Some (VDate 10), Some (VStr "u1"))]
  ∧ now Sample.wLater = 20%Z
  ∧ actor Sample.withAccessor Sample.wLater = Some "42".
Proof. repeat split; vm_compute; reflexivity. Qed.

(** C9, amended: [delete] leaves [deleted = true] after both calls and
    never reverts it, in the caller's object and in the stored rows.  A
    second [delete] of the same object, started in any world whose heap is
    as the first call left it, overwrites [deletedOn] and [deletedBy] of
    the caller's object with the time and the actor of the second call.
    On the in-memory table, when a non-tombstoned row carries the
    object's id, the first call succeeds and merges the stamped object
    into the non-tombstoned rows with that id; the second call, on the
    table the first one left, finds no such row any more: it rejects
    with the store's not-found error and the table, with the stamp of the
    first call, is unchanged. *)
Theorem delete_twice_last_writer_wins :
  (∀ (DB : Type) (S : CrudStore DB) (Ctx : Type) (this : Repository Ctx)
     (entity : loc) (options options' : option Options)
     (w w' : World DB Ctx) (e : Entity),
     heap w !! entity = Some e →
     heap w' = heap (SoftCrud.delete this entity options w).2 →
     ∃ e1 e2 : Entity,
       heap (SoftCrud.delete this entity options w).2 !! entity = Some e1
       ∧ e1 !! "deleted" = Some (VBool true)
       ∧ heap (SoftCrud.delete this entity options' w').2 !! entity = Some e2
       ∧ e2 !! "deleted" = Some (VBool true)
       ∧ e2 !! "deletedOn" = Some (VDate (now w'))
       ∧ e2 !! "deletedBy" = Some (ofUserId (actor this w'))
       ∧ e2 = stamped e (now w') (actor this w'))
  ∧ (∀ (Ctx : Type) (this : Repository Ctx) (entity : loc)
       (options options' : option Options)
       (w w' : World (list Entity) Ctx) (e : Entity),
       heap w !! entity = Some e →
       existsb (liveWithId (getId e)) (db w) = true →
       heap w' = heap (SoftCrud.delete this entity options w).2 →
       db w' = db (SoftCrud.delete this entity options w).2 →
       (SoftCrud.delete this entity options w).1 = Ok ()
       ∧ (∀ n r, db w !! n = Some r → liveWithId (getId e) r = true →
            db w' !! n
            = Some (MemStore.patch (stamped e (now w) (actor this w)) r))
       ∧ (∀ n r, db w !! n = Some r → liveWithId (getId e) r = false →
            db w' !! n = Some r)
       ∧ (∀ r, r ∈ db w' → MemStore.hasId (getId e) r = true → live r = false)
       ∧ SoftCrud.delete this entity options' w'
         = (Throw (StoreError "ENTITY_NOT_FOUND" (getId e)),
            mkWorld (<[entity := stamped e (now w') (actor this w')]> (heap w'))
              (db w') (now w') (ctx w'))).
Proof.
  split.
  - intros DB S Ctx this entity options options' w w' e He Hw'.
    assert (heap (SoftCrud.delete this entity options w).2 !! entity
            = Some (stamped e (now w) (actor this w))) as H1.
    { rewrite (delete_run this entity options w e He). simpl.
      destruct (super_update _ _ _) as [r d]. simpl. apply lookup_insert_eq. }
    assert (heap w' !! entity = Some (stamped e (now w) (actor this w))) as He'
      by (by rewrite Hw').
    exists (stamped e (now w) (actor this w)), (stamped e (now w') (actor this w')).
    split; [exact H1|]. split; [apply stamped_deleted|]. split.
    + rewrite (delete_run this entity options' w' _ He'). simpl.
      destruct (super_update _ _ _) as [r d]. simpl.
      rewrite lookup_insert_eq. by rewrite stamped_stamped.
    + split; [apply stamped_deleted|]. split; [apply stamped_deletedOn|].
      split; [apply stamped_deletedBy|done].
  - intros Ctx this entity options options' w w' e He Hlive Hheap Hdb.
    pose proof (delete_table this entity options w e (actor this w) He
                  (resolution_resolving this None (ctx w))) as Hrun.
    rewrite Hlive in Hrun. rewrite Hrun in Hheap, Hdb |- *. simpl in Hheap, Hdb.
    assert (∀ r, r ∈ db w' → MemStore.hasId (getId e) r = true → live r = false)
      as Hdead.
    { intros r Hr. rewrite Hdb in Hr. revert Hr.
      apply patchWhere_liveWithId_dead, stamped_deleted. }
    split; [done|]. split; [|split; [|split; [exact Hdead|]]].
    + intros n r Hr Hhit. rewrite Hdb. by apply patchWhere_lookup_hit.
    + intros n r Hr Hhit. rewrite Hdb. by apply patchWhere_lookup_other.
    + assert (heap w' !! entity = Some (stamped e (now w) (actor this w))) as He'
        by (rewrite Hheap; apply lookup_insert_eq).
      rewrite (delete_table this entity options' w' _ (actor this w') He'
                 (resolution_resolving this None (ctx w'))).
      rewrite getId_stamped, stamped_stamped.
      rewrite existsb_dead; [done|].
      intros r Hr. unfold liveWithId.
      destruct (MemStore.hasId (getId e) r) eqn:Hid; [|done].
      by rewrite (Hdead r Hr Hid).
Qed.

Lemma delete_twice_last_writer_wins_witness :
  heap Sample.wU1 !! 1%positive = Some (Sample.row 1 "pending" false)
  ∧ existsb (liveWithId (getId (Sample.row 1 "pending" false)))
      (db Sample.wU1) = true
  ∧ heap Sample.wLater
    = heap (SoftCrud.delete Sample.withAccessor 1%positive None Sample.wU1).2
  ∧ db Sample.wLater
    = db (SoftCrud.delete Sample.withAccessor 1%positive None Sample.wU1).2
  ∧ (SoftCrud.delete Sample.withAccessor 1%positive None Sample.wU1).1 = Ok ()
  ∧ SoftCrud.delete Sample.withAccessor 1%positive None Sample.wLater
    = (Throw (StoreError "ENTITY_NOT_FOUND"
                (getId (Sample.row 1 "pending" false))),
       mkWorld
         (<[1%positive := stamped (Sample.row 1 "pending" false)
                            (now Sample.wLater)
                            (actor Sample.withAccessor Sample.wLater)]>
            (heap Sample.wLater))
         (db Sample.wLater) (now Sample.wLater) (ctx Sample.wLater)).
Proof.
  assert (heap Sample.wU1 !! 1%positive = Some (Sample.row 1 "pending" false))
    as H1 by (vm_compute; reflexivity).
  assert (existsb (liveWithId (getId (Sample.row 1 "pending" false)))
            (db Sample.wU1) = true) as H2 by (vm_compute; reflexivity).
  split; [exact H1|]. split; [exact H2|].
  split; [reflexivity|]. split; [reflexivity|].
  destruct (proj2 delete_twice_last_writer_wins _ Sample.withAccessor
              1%positive None None Sample.wU1 Sample.wLater _ H1 H2
              eq_refl eq_refl) as (Hok & _ & _ & _ & Hsecond).
  split; [exact Hok|exact Hsecond].
Defined.

(** * Further properties of the class *)

(** ** Reads over the in-memory table *)

Section MoreReads.
Context {Ctx : Type}.
Implicit Types (w : World (list Entity) Ctx) (e r : Entity) (rows : list Entity).

Lemma elem_of_window (flt : option Filter) rows e :
  e ∈ MemStore.window flt rows → e ∈ rows.
Proof.
  unfold MemStore.window. intros H.
  destruct (flt ≫= limit) as [[|n]|].
  - by apply (subseteq_drop (default 0 (flt ≫= skip))).
  - by apply (subseteq_drop (default 0 (flt ≫= skip))), (subseteq_take (S n)).
  - by apply (subseteq_drop (default 0 (flt ≫= skip))).
Qed.

Lemma head_take_pos {A} (n : nat) (l : list A) : n ≠ 0 → head (take n l) = head l.
Proof. destruct n; [done|]. by destruct l. Qed.

Lemma head_window (flt : option Filter) rows :
  flt ≫= limit ≠ Some 0 →
  head (MemStore.window flt rows) = head (drop (default 0 (flt ≫= skip)) rows).
Proof.
  unfold MemStore.window. intros Hl.
  destruct (flt ≫= limit) as [[|n]|]; [done| |done].
  by apply head_take_pos.
Qed.

Lemma findOne_table (flt : option Filter) options w :
  SoftCrud.findOne flt options w
  = (Ok (head (drop (default 0 (flt ≫= skip))
                 (List.filter (hit (flt ≫= where_)) (db w)))), w).
Proof.
  unfold SoftCrud.findOne, super. simpl. unfold MemStore.findOne. simpl.
  rewrite world_eta. do 4 f_equal.
  apply filter_ext. intros e. apply (selects_produceSoftDeleteWhere e).
Qed.

Lemma filter_filter_hit (whr : option Where) rows :
  List.filter live (List.filter (MemStore.selects whr) rows)
  = List.filter (hit whr) rows.
Proof. symmetry. apply filter_andb. Qed.

Lemma count_table (whr : option Where) options w :
  SoftCrud.count whr options w
  = (Ok (counted (List.filter (hit whr) (db w))), w).
Proof.
  unfold SoftCrud.count, super. simpl. unfold MemStore.count, counted.
  rewrite world_eta. do 4 f_equal.
  apply filter_ext. intros e. apply (selects_produceSoftDeleteWhere e).
Qed.

Lemma updateAll_table (data : DataObject) (whr : option Where) options w :
  SoftCrud.updateAll data whr options w
  = (Ok (counted (List.filter (hit whr) (db w))),
     mkWorld (heap w)
       (map (λ e, if hit whr e then MemStore.patch data e else e) (db w))
       (now w) (ctx w)).
Proof.
  rewrite updateAll_run. unfold super. simpl.
  unfold MemStore.updateAll, MemStore.patchWhere, counted.
  f_equal; [do 3 f_equal|f_equal].
  - apply filter_ext. intros e. apply (selects_produceSoftDeleteWhere e).
  - apply map_ext. intros e.
    change (MemStore.holds e (produceSoftDeleteWhere whr))
      with (MemStore.selects (Some (produceSoftDeleteWhere whr)) e).
    by rewrite selects_produceSoftDeleteWhere.
Qed.
End MoreReads.

(** X1: whatever the filter, window included, [find] succeeds, leaves
    the table as it was, and every row it returns is a row of the table
    that satisfies the caller's where clause and has [deleted = false];
    when the filter cuts no window, every such row of the table is
    returned.  (Nothing is said of the order of the rows.) *)
Theorem find_returns_only_live_matches :
  ∀ (Ctx : Type) (flt : option Filter) (options : option Options)
    (w : World (list Entity) Ctx),
    ∃ rows : list Entity,
      SoftCrud.find flt options w = (Ok rows, w)
      ∧ (∀ e, e ∈ rows →
           e ∈ db w ∧ MemStore.selects (flt ≫= where_) e = true
           ∧ e !! "deleted" = Some (VBool false))
      ∧ (unwindowed flt = true →
         ∀ e, e ∈ db w → MemStore.selects (flt ≫= where_) e = true →
              e !! "deleted" = Some (VBool false) → e ∈ rows).
Proof.
  intros Ctx flt options w. eexists. split; [apply find_table|].
  rewrite filter_filter_hit. split.
  - intros e He%elem_of_window. apply elem_of_filter_bool in He as [He Hh].
    unfold hit in Hh. apply andb_true_iff in Hh as [Hs Hl].
    split; [done|]. split; [done|].
    by apply bool_decide_eq_true in Hl.
  - intros Hu e He Hs Hd. rewrite (window_unwindowed flt _ Hu).
    apply elem_of_filter_bool. split; [done|].
    unfold hit, live. rewrite Hs. by apply bool_decide_eq_true.
Qed.

Lemma find_returns_only_live_matches_witness :
  unwindowed (Some Sample.wherePending) = true
  ∧ ∃ rows : list Entity,
      SoftCrud.find (Some Sample.wherePending) None Sample.w3 = (Ok rows, Sample.w3)
      ∧ Sample.row 3 "pending" false ∈ rows.
Proof.
  split; [reflexivity|].
  destruct (find_returns_only_live_matches _ (Some Sample.wherePending) None
              Sample.w3) as (rows & Hfind & _ & Hall).
  exists rows. split; [exact Hfind|].
  apply (Hall eq_refl).
  - apply list_elem_of_further, list_elem_of_further, list_elem_of_here.
  - vm_compute. reflexivity.
  - vm_compute. reflexivity.
Defined.

(** X2: unless the filter asks for a limit of zero, [findOne(f)] returns
    the first row of [find(f)], and [findOneIncludeSoftDelete(f)] the
    first row of [findAll(f)]; each returns [null] exactly when that list
    is empty.  A row [findOne] returns has [deleted = false]. *)
Theorem findOne_is_head_of_find :
  ∀ (Ctx : Type) (flt : option Filter) (options : option Options)
    (w : World (list Entity) Ctx),
    flt ≫= limit ≠ Some 0 →
    (SoftCrud.findOne flt options w).1
    = mapOutcome head (SoftCrud.find flt options w).1
    ∧ (SoftCrud.findOneIncludeSoftDelete flt options w).1
      = mapOutcome head (SoftCrud.findAll flt options w).1
    ∧ (∀ e, (SoftCrud.findOne flt options w).1 = Ok (Some e) →
         e !! "deleted" = Some (VBool false)).
Proof.
  intros Ctx flt options w Hl. split; [|split].
  - rewrite findOne_table, find_table, filter_filter_hit. simpl.
    by rewrite head_window.
  - rewrite findAll_table. simpl. by rewrite head_window.
  - rewrite findOne_table. simpl. intros e [= He].
    apply head_Some_elem_of in He.
    apply (subseteq_drop (default 0 (flt ≫= skip))) in He.
    apply elem_of_filter_bool in He as [_ Hh].
    unfold hit in Hh. apply andb_true_iff in Hh as [_ Hlive].
    by apply bool_decide_eq_true in Hlive.
Qed.

Lemma findOne_is_head_of_find_witness :
  Some Sample.limit1 ≫= limit ≠ Some 0
  ∧ (SoftCrud.findOne (Some Sample.limit1) None Sample.w3).1
    = mapOutcome head (SoftCrud.find (Some Sample.limit1) None Sample.w3).1
  ∧ (SoftCrud.findOneIncludeSoftDelete (Some Sample.limit1) None Sample.w3).1
    = mapOutcome head (SoftCrud.findAll (Some Sample.limit1) None Sample.w3).1.
Proof.
  assert (Some Sample.limit1 ≫= limit ≠ Some 0) as H by discriminate.
  split; [exact H|].
  destruct (findOne_is_head_of_find _ (Some Sample.limit1) None Sample.w3 H)
    as (H1 & H2 & _).
  split; [exact H1|exact H2].
Defined.

(** X3: [count(w)] is the number of rows [find({where: w})] returns, that
    is, the number of rows of [findAll({where: w})] with
    [deleted = false]; counting changes nothing. *)
Theorem count_is_length_of_find :
  ∀ (Ctx : Type) (whr : option Where) (options : option Options)
    (w : World (list Entity) Ctx),
    SoftCrud.count whr options w
    = (mapOutcome counted
         (SoftCrud.find (Some (whereOnly whr)) options w).1, w)
    ∧ (SoftCrud.count whr options w).1
      = mapOutcome counted
          (keepLive (SoftCrud.findAll (Some (whereOnly whr)) options w).1).
Proof.
  intros Ctx whr options w.
  rewrite count_table, find_table, findAll_table. simpl.
  unfold MemStore.window. simpl. rewrite !drop_0.
  by rewrite filter_filter_hit.
Qed.

(** X4: [updateAll(data, w)] returns what [count(w)] would have returned
    just before, merges [data] into exactly the rows that match [w] and
    have [deleted = false], and leaves every other row as it is and where
    it is: no patch, not even [{deleted: false}], reaches a tombstoned
    row.  The caller's objects are not touched. *)
Theorem updateAll_skips_tombstoned_rows :
  ∀ (Ctx : Type) (data : DataObject) (whr : option Where)
    (options : option Options) (w : World (list Entity) Ctx),
    (SoftCrud.updateAll data whr options w).1 = (SoftCrud.count whr options w).1
    ∧ heap (SoftCrud.updateAll data whr options w).2 = heap w
    ∧ length (db (SoftCrud.updateAll data whr options w).2) = length (db w)
    ∧ (∀ n e, db w !! n = Some e →
         db (SoftCrud.updateAll data whr options w).2 !! n
         = Some (if MemStore.selects whr e && live e
                 then MemStore.patch data e else e))
    ∧ (∀ n e, db w !! n = Some e → live e = false →
         db (SoftCrud.updateAll data whr options w).2 !! n = Some e).
Proof.
  intros Ctx data whr options w.
  rewrite updateAll_table, count_table. simpl.
  split; [done|]. split; [done|]. split; [by rewrite length_map|].
  split.
  - intros n e He. by rewrite lookup_map, He.
  - intros n e He Hl. rewrite lookup_map, He. simpl.
    unfold hit. by rewrite Hl, andb_false_r.
Qed.

Lemma updateAll_skips_tombstoned_rows_witness :
  db Sample.w3 !! 0 = Some (Sample.dead 1 "pending" 5)
  ∧ live (Sample.dead 1 "pending" 5) = false
  ∧ db (SoftCrud.updateAll {[ "deleted" := VBool false ]} None None Sample.w3).2
      !! 0 = Some (Sample.dead 1 "pending" 5).
Proof.
  split; [reflexivity|]. split; [vm_compute; reflexivity|].
  apply (proj2 (proj2 (proj2 (proj2
    (updateAll_skips_tombstoned_rows _ {[ "deleted" := VBool false ]}
       None None Sample.w3))))); [reflexivity|vm_compute; reflexivity].
Defined.

(** ** Soft deletes followed by reads *)

(** X5: [deleteAll] is idempotent on the table: once [deleteAll(w)] has
    run, a second [deleteAll(w)] on the table it left (at any later time,
    for any user) returns a count of zero and changes no row, and
    [count(w)] is zero. *)
Theorem deleteAll_twice_counts_zero :
  ∀ (Ctx : Type) (this this' : Repository Ctx) (whr : option Where)
    (options options' : option Options) (w w' : World (list Entity) Ctx),
    db w' = db (SoftCrud.deleteAll this whr options w).2 →
    SoftCrud.deleteAll this' whr options' w' = (Ok (mkCount 0), w')
    ∧ SoftCrud.count whr options' w' = (Ok (mkCount 0), w').
Proof.
  intros Ctx this this' whr options options' w w' Hw'.
  assert (∀ e, e ∈ db w' → hit whr e = false) as Hnone.
  { intros e He. rewrite Hw', deleteAll_table in He. simpl in He.
    apply list_elem_of_In, in_map_iff in He as (e0 & <- & _).
    destruct (hit whr e0) eqn:H0; [|done].
    unfold hit. rewrite live_patch_dead; [apply andb_false_r|].
    apply tombstone_deleted. }
  rewrite deleteAll_table, count_table. unfold counted.
  rewrite (filter_nil_iff _ _ Hnone). simpl. split; [|done].
  f_equal. rewrite <- (world_eta w') at 5. f_equal.
  rewrite <- (map_id (db w')) at 2. apply map_ext_in.
  intros e He%list_elem_of_In. by rewrite (Hnone e He).
Qed.

Lemma deleteAll_twice_counts_zero_witness :
  db (SoftCrud.deleteAll Sample.withAccessor (Some Sample.pending) None
        Sample.w5).2
  = db (SoftCrud.deleteAll Sample.withAccessor (Some Sample.pending) None
          Sample.w5).2
  ∧ (SoftCrud.deleteAll Sample.noAccessor (Some Sample.pending) None
       (SoftCrud.deleteAll Sample.withAccessor (Some Sample.pending) None
          Sample.w5).2).1
    = Ok (mkCount 0).
Proof.
  split; [reflexivity|].
  rewrite (proj1 (deleteAll_twice_counts_zero _ Sample.withAccessor
                    Sample.noAccessor (Some Sample.pending) None None
                    Sample.w5 _ eq_refl)).
  reflexivity.
Defined.

(** X6: when the table holds a non-tombstoned row with id [i],
    [deleteById(i)] succeeds and merges the tombstone (the time and the
    actor of the call) into the non-tombstoned rows with that id, leaving
    every other row, tombstoned rows with the same id included, as it
    was; from the table it leaves, [findById(i)] throws
    NotFound(EntityNotFound) for every filter, and when the id is unique
    [findByIdIncludeSoftDelete(i)] returns the stamped row.  When no
    non-tombstoned row has the id, an already tombstoned record among
    them, [deleteById(i)] rejects with the store's not-found error and
    changes nothing: a tombstone is not stamped again. *)
Theorem deleteById_then_lookups :
  (∀ (Ctx : Type) (this : Repository Ctx) (i : JsVal)
     (options options' : option Options) (flt : option Filter)
     (w : World (list Entity) Ctx),
     existsb (liveWithId i) (db w) = true →
     (SoftCrud.deleteById this i options w).1 = Ok ()
     ∧ SoftCrud.findById i flt options' (SoftCrud.deleteById this i options w).2
       = (Throw (HttpNotFound EntityNotFound),
          (SoftCrud.deleteById this i options w).2)
     ∧ (∀ n r, db w !! n = Some r → liveWithId i r = true →
          db (SoftCrud.deleteById this i options w).2 !! n
          = Some (MemStore.patch (tombstone (VDate (now w)) (actor this w)) r))
     ∧ (∀ n r, db w !! n = Some r → liveWithId i r = false →
          db (SoftCrud.deleteById this i options w).2 !! n = Some r)
     ∧ (∀ r0, withId i (db w) = [r0] →
          (SoftCrud.findByIdIncludeSoftDelete i flt options'
             (SoftCrud.deleteById this i options w).2).1
          = Ok (MemStore.patch (tombstone (VDate (now w)) (actor this w)) r0)))
  ∧ (∀ (Ctx : Type) (this : Repository Ctx) (i : JsVal)
       (options : option Options) (w : World (list Entity) Ctx),
       existsb (liveWithId i) (db w) = false →
       SoftCrud.deleteById this i options w
       = (Throw (StoreError "ENTITY_NOT_FOUND" i), w)).
Proof.
  split.
  - intros Ctx this i options options' flt w Hi.
    rewrite (deleteById_table this i options w (actor this w)
               (resolution_resolving this None (ctx w))), Hi. simpl.
    split; [done|]. split; [|split; [|split]].
    + apply findById_hidden. simpl. intros e.
      apply patchWhere_liveWithId_dead, tombstone_deleted.
    + intros n r Hr Hhit. by apply patchWhere_lookup_hit.
    + intros n r Hr Hhit. by apply patchWhere_lookup_other.
    + intros r0 Hr0.
      assert (liveWithId i r0 = true) as Hlive.
      { apply existsb_exists in Hi as (x & Hx & Hq).
        assert (MemStore.hasId i x = true) as Hid
          by (unfold liveWithId in Hq; by apply andb_true_iff in Hq as [? _]).
        apply list_elem_of_In in Hx.
        by rewrite <- (withId_singleton_elem i (db w) r0 x Hr0 Hx Hid). }
      unfold SoftCrud.findByIdIncludeSoftDelete, super. simpl.
      unfold MemStore.findById, MemStore.patchWhere.
      rewrite find_map_stable.
      * rewrite find_head_filter. fold (withId i (db w)). rewrite Hr0. simpl.
        by rewrite Hlive.
      * intros e. destruct (liveWithId i e); [|done].
        apply hasId_patch_noid, tombstone_id.
  - intros Ctx this i options w Hi.
    by rewrite (deleteById_table this i options w (actor this w)
                  (resolution_resolving this None (ctx w))), Hi.
Qed.

Lemma deleteById_then_lookups_witness :
  existsb (liveWithId (VNum 2)) (db Sample.w3) = true
  ∧ SoftCrud.findById (VNum 2) None None
      (SoftCrud.deleteById Sample.noAccessor (VNum 2) None Sample.w3).2
    = (Throw (HttpNotFound EntityNotFound),
       (SoftCrud.deleteById Sample.noAccessor (VNum 2) None Sample.w3).2)
  ∧ existsb (liveWithId (VNum 1)) (db Sample.w3) = false
  ∧ SoftCrud.deleteById Sample.noAccessor (VNum 1) None Sample.w3
    = (Throw (StoreError "ENTITY_NOT_FOUND" (VNum 1)), Sample.w3).
Proof.
  assert (existsb (liveWithId (VNum 2)) (db Sample.w3) = true) as H
    by (vm_compute; reflexivity).
  assert (existsb (liveWithId (VNum 1)) (db Sample.w3) = false) as H'
    by (vm_compute; reflexivity).
  split; [exact H|]. split.
  - apply (proj1 (proj2 (proj1 deleteById_then_lookups _ Sample.noAccessor
                           (VNum 2) None None None Sample.w3 H))).
  - split; [exact H'|].
    apply (proj2 deleteById_then_lookups _ Sample.noAccessor (VNum 1) None
             Sample.w3 H').
Defined.

(** X7: [deleteById(i)] on a table without the id rejects with the
    store's own not-found error and leaves the table and the caller's
    objects as they were: no tombstone is created for an unknown id. *)
Theorem deleteById_unknown_id :
  ∀ (Ctx : Type) (this : Repository Ctx) (i : JsVal)
    (options : option Options) (w : World (list Entity) Ctx),
    existsb (MemStore.hasId i) (db w) = false →
    SoftCrud.deleteById this i options w
    = (Throw (StoreError "ENTITY_NOT_FOUND" i), w).
Proof.
  intros Ctx this i options w Hi.
  rewrite (deleteById_table this i options w (actor this w)
             (resolution_resolving this None (ctx w))).
  rewrite (existsb_false_weaken (liveWithId i) (MemStore.hasId i)); [done| |done].
  intros e He. unfold liveWithId in He. by apply andb_true_iff in He as [? _].
Qed.

Lemma deleteById_unknown_id_witness :
  existsb (MemStore.hasId (VNum 9)) (db Sample.w3) = false
  ∧ SoftCrud.deleteById Sample.withAccessor (VNum 9) None Sample.w3
    = (Throw (StoreError "ENTITY_NOT_FOUND" (VNum 9)), Sample.w3).
Proof.
  split; [vm_compute; reflexivity|].
  apply deleteById_unknown_id. vm_compute. reflexivity.
Defined.

(** X8: when the caller's object carries an id that a non-tombstoned
    row of the table has, [delete(entity)] succeeds and, from the table
    it leaves, [findById] of that id throws NotFound(EntityNotFound) for
    every filter; the rows that are tombstoned or have another id are as
    before. *)
Theorem delete_then_findById_not_found :
  ∀ (Ctx : Type) (this : Repository Ctx) (entity : loc)
    (options options' : option Options) (flt : option Filter)
    (w : World (list Entity) Ctx) (e : Entity) (i : JsVal),
    heap w !! entity = Some e →
    e !! "id" = Some i →
    existsb (liveWithId i) (db w) = true →
    (SoftCrud.delete this entity options w).1 = Ok ()
    ∧ SoftCrud.findById i flt options' (SoftCrud.delete this entity options w).2
      = (Throw (HttpNotFound EntityNotFound),
         (SoftCrud.delete this entity options w).2)
    ∧ (∀ n r, db w !! n = Some r → liveWithId i r = false →
         db (SoftCrud.delete this entity options w).2 !! n = Some r).
Proof.
  intros Ctx this entity options options' flt w e i He Hid Hi.
  assert (getId e = i) as Hget by (unfold getId; by rewrite Hid).
  rewrite (delete_table this entity options w e (actor this w) He
             (resolution_resolving this None (ctx w))).
  rewrite Hget, Hi. simpl.
  split; [done|]. split.
  - apply findById_hidden. simpl. intros e0.
    apply patchWhere_liveWithId_dead, stamped_deleted.
  - intros n r Hr Hno. by apply patchWhere_lookup_other.
Qed.

Lemma delete_then_findById_not_found_witness :
  heap Sample.wHeld2 !! 1%positive = Some (Sample.row 2 "pending" false)
  ∧ Sample.row 2 "pending" false !! "id" = Some (VNum 2)
  ∧ existsb (liveWithId (VNum 2)) (db Sample.wHeld2) = true
  ∧ SoftCrud.findById (VNum 2) None None
      (SoftCrud.delete Sample.withAccessor 1%positive None Sample.wHeld2).2
    = (Throw (HttpNotFound EntityNotFound),
       (SoftCrud.delete Sample.withAccessor 1%positive None Sample.wHeld2).2).
Proof.
  assert (heap Sample.wHeld2 !! 1%positive = Some (Sample.row 2 "pending" false))
    as H1 by (vm_compute; reflexivity).
  assert (Sample.row 2 "pending" false !! "id" = Some (VNum 2))
    as H2 by (vm_compute; reflexivity).
  assert (existsb (liveWithId (VNum 2)) (db Sample.wHeld2) = true)
    as H3 by (vm_compute; reflexivity).
  split; [exact H1|]. split; [exact H2|]. split; [exact H3|].
  apply (proj1 (proj2 (delete_then_findById_not_found _ Sample.withAccessor
                         1%positive None None None Sample.wHeld2 _ _ H1 H2 H3))).
Defined.

(** X9: [delete] stamps the caller's object before it calls the store and
    undoes nothing: when the underlying update rejects, [delete] rejects
    with the same error and the object nevertheless carries the
    tombstone.  On the in-memory table this is what happens when the
    object's id is not in the table; the table itself is unchanged. *)
Theorem rejected_delete_still_stamps :
  (∀ (DB : Type) (S : CrudStore DB) (Ctx : Type) (this : Repository Ctx)
     (entity : loc) (options : option Options) (w : World DB Ctx)
     (e : Entity) (err : Error) (d : DB),
     heap w !! entity = Some e →
     super_update (stamped e (now w) (actor this w)) options (db w)
     = (Throw err, d) →
     (SoftCrud.delete this entity options w).1 = Throw err
     ∧ heap (SoftCrud.delete this entity options w).2 !! entity
       = Some (stamped e (now w) (actor this w)))
  ∧ (∀ (Ctx : Type) (this : Repository Ctx) (entity : loc)
       (options : option Options) (w : World (list Entity) Ctx) (e : Entity),
       heap w !! entity = Some e →
       existsb (MemStore.hasId (getId e)) (db w) = false →
       SoftCrud.delete this entity options w
       = (Throw (StoreError "ENTITY_NOT_FOUND" (getId e)),
          mkWorld (<[entity := stamped e (now w) (actor this w)]> (heap w))
            (db w) (now w) (ctx w))).
Proof.
  split.
  - intros DB S Ctx this entity options w e err d He Hs.
    rewrite (delete_run this entity options w e He). simpl. rewrite Hs. simpl.
    split; [done|apply lookup_insert_eq].
  - intros Ctx this entity options w e He Hi.
    rewrite (delete_table this entity options w e (actor this w) He
               (resolution_resolving this None (ctx w))).
    rewrite (existsb_false_weaken (liveWithId (getId e))
               (MemStore.hasId (getId e))); [done| |done].
    intros r Hr. unfold liveWithId in Hr. by apply andb_true_iff in Hr as [? _].
Qed.

Lemma rejected_delete_still_stamps_witness :
  heap Sample.wOrphan !! 1%positive = Some (Sample.row 9 "pending" false)
  ∧ existsb (MemStore.hasId (getId (Sample.row 9 "pending" false)))
      (db Sample.wOrphan) = false
  ∧ (SoftCrud.delete Sample.withAccessor 1%positive None Sample.wOrphan).1
    = Throw (StoreError "ENTITY_NOT_FOUND" (VNum 9))
  ∧ (heap (SoftCrud.delete Sample.withAccessor 1%positive None Sample.wOrphan).2
       !! 1%positive) ≫= (λ e : Entity, e !! "deleted")
    = Some (VBool true).
Proof.
  assert (heap Sample.wOrphan !! 1%positive = Some (Sample.row 9 "pending" false))
    as H1 by (vm_compute; reflexivity).
  assert (existsb (MemStore.hasId (getId (Sample.row 9 "pending" false)))
            (db Sample.wOrphan) = false) as H2 by (vm_compute; reflexivity).
  split; [exact H1|]. split; [exact H2|].
  rewrite (proj2 rejected_delete_still_stamps _ Sample.withAccessor 1%positive
             None Sample.wOrphan _ H1 H2).
  split; vm_compute; reflexivity.
Defined.

(** ** Hard deletes *)

Section Hard.
Context {Ctx : Type}.
Implicit Types (w : World (list Entity) Ctx) (e r : Entity) (rows : list Entity).

Lemma filter_filter_negb {A} (p : A → bool) (l : list A) :
  List.filter p (List.filter (λ x, negb (p x)) l) = [].
Proof.
  apply filter_nil_iff. intros x [_ Hx]%elem_of_filter_bool.
  by apply negb_true_iff.
Qed.

Lemma find_None_filter_nil {A} (p : A → bool) (l : list A) :
  List.filter p l = [] → List.find p l = None.
Proof. intros H. by rewrite find_head_filter, H. Qed.

Lemma deleteByIdHard_table (i : JsVal) options w :
  existsb (MemStore.hasId i) (db w) = true →
  SoftCrud.deleteByIdHard i options w
  = (Ok (),
     mkWorld (heap w) (List.filter (λ e, negb (MemStore.hasId i e)) (db w))
       (now w) (ctx w)).
Proof.
  intros Hi. unfold SoftCrud.deleteByIdHard, super. simpl.
  unfold MemStore.deleteById. by rewrite Hi.
Qed.
End Hard.

(** X10: [deleteByIdHard(i)], on a table holding the id, removes every
    row with that id, tombstoned or not, and keeps the other rows in
    order; afterwards no read finds the id, not even
    [findByIdIncludeSoftDelete], which rejects with the store's not-found
    error.  On a table without the id it rejects and changes nothing. *)
Theorem deleteByIdHard_removes_the_rows :
  (∀ (Ctx : Type) (i : JsVal) (options options' : option Options)
     (flt : option Filter) (w : World (list Entity) Ctx),
     existsb (MemStore.hasId i) (db w) = true →
     (SoftCrud.deleteByIdHard i options w).1 = Ok ()
     ∧ db (SoftCrud.deleteByIdHard i options w).2
       = List.filter (λ e, negb (MemStore.hasId i e)) (db w)
     ∧ heap (SoftCrud.deleteByIdHard i options w).2 = heap w
     ∧ withId i (db (SoftCrud.deleteByIdHard i options w).2) = []
     ∧ (SoftCrud.findByIdIncludeSoftDelete i flt options'
          (SoftCrud.deleteByIdHard i options w).2).1
       = Throw (StoreError "ENTITY_NOT_FOUND" i)
     ∧ (SoftCrud.findById i flt options'
          (SoftCrud.deleteByIdHard i options w).2).1
       = Throw (HttpNotFound EntityNotFound))
  ∧ (∀ (Ctx : Type) (i : JsVal) (options : option Options)
       (w : World (list Entity) Ctx),
       existsb (MemStore.hasId i) (db w) = false →
       SoftCrud.deleteByIdHard i options w
       = (Throw (StoreError "ENTITY_NOT_FOUND" i), w)).
Proof.
  split.
  - intros Ctx i options options' flt w Hi.
    rewrite (deleteByIdHard_table i options w Hi). simpl.
    pose proof (filter_filter_negb (MemStore.hasId i) (db w)) as Hnil.
    split; [done|]. split; [done|]. split; [done|]. split; [exact Hnil|].
    split.
    + unfold SoftCrud.findByIdIncludeSoftDelete, super. simpl.
      unfold MemStore.findById. by rewrite (find_None_filter_nil _ _ Hnil).
    + rewrite findById_hidden; [done|]. simpl.
      intros e [_ He]%elem_of_filter_bool Hid.
      rewrite Hid in He. discriminate.
  - intros Ctx i options w Hi. unfold SoftCrud.deleteByIdHard, super. simpl.
    unfold MemStore.deleteById. rewrite Hi. simpl. by rewrite world_eta.
Qed.

Lemma deleteByIdHard_removes_the_rows_witness :
  existsb (MemStore.hasId (VNum 1)) (db Sample.w3) = true
  ∧ db (SoftCrud.deleteByIdHard (VNum 1) None Sample.w3).2
    = [Sample.row 2 "pending" false; Sample.row 3 "pending" false]
  ∧ (SoftCrud.findByIdIncludeSoftDelete (VNum 1) None None
       (SoftCrud.deleteByIdHard (VNum 1) None Sample.w3).2).1
    = Throw (StoreError "ENTITY_NOT_FOUND" (VNum 1)).
Proof.
  assert (existsb (MemStore.hasId (VNum 1)) (db Sample.w3) = true) as H
    by (vm_compute; reflexivity).
  split; [exact H|].
  destruct (proj1 deleteByIdHard_removes_the_rows _ (VNum 1) None None None
              Sample.w3 H) as (_ & Hdb & _ & _ & Hfind & _).
  split; [rewrite Hdb; vm_compute; reflexivity|exact Hfind].
Defined.

(** X12: [deleteAllHard(w)] hands the where clause over as it is: it
    removes every row matching [w], tombstoned rows included, returns
    their number (the length of [findAll({where: w})]), and keeps the
    rows that do not match, in order; afterwards [findAll({where: w})] is
    empty. *)
Theorem deleteAllHard_removes_all_matches :
  ∀ (Ctx : Type) (whr : option Where) (options options' : option Options)
    (w : World (list Entity) Ctx),
    (SoftCrud.deleteAllHard whr options w).1
    = mapOutcome counted (SoftCrud.findAll (Some (whereOnly whr)) options w).1
    ∧ db (SoftCrud.deleteAllHard whr options w).2
      = List.filter (λ e, negb (MemStore.selects whr e)) (db w)
    ∧ heap (SoftCrud.deleteAllHard whr options w).2 = heap w
    ∧ (SoftCrud.findAll (Some (whereOnly whr)) options'
         (SoftCrud.deleteAllHard whr options w).2).1 = Ok [].
Proof.
  intros Ctx whr options options' w.
  rewrite !findAll_table. unfold SoftCrud.deleteAllHard, super. simpl.
  unfold MemStore.window. simpl. rewrite !drop_0.
  split; [done|]. split; [done|]. split; [done|].
  by rewrite filter_filter_negb.
Qed.

(** ** By-id lookup and actor resolution, case by case *)

(** X13: when the table holds exactly one row [r] with id [i] and the
    filter skips nothing, [findById(i, f)] returns [r] if [r] has
    [deleted = false] and satisfies the where clause of [f], and throws
    NotFound(EntityNotFound) otherwise: the caller's where clause takes
    part in the probe, so a live row that fails it is reported as not
    found. *)
Theorem findById_unique_row :
  ∀ (Ctx : Type) (i : JsVal) (r : Entity) (flt : option Filter)
    (options : option Options) (w : World (list Entity) Ctx),
    withId i (db w) = [r] →
    default 0 (flt ≫= skip) = 0 →
    SoftCrud.findById i flt options w
    = if MemStore.selects (flt ≫= where_) r && live r
      then (Ok r, w)
      else (Throw (HttpNotFound EntityNotFound), w).
Proof.
  intros Ctx i r flt options w Hr Hs.
  assert (super_findOne (Some (produceSoftDeleteFilter flt (Some [("id", i)])))
            options (db w)
          = (Ok (if MemStore.selects (flt ≫= where_) r && live r
                 then Some r else None), db w)) as Hprobe.
  { simpl. unfold MemStore.findOne.
    change (Some (produceSoftDeleteFilter flt (Some [("id", i)])) ≫= skip)
      with (flt ≫= skip).
    change (Some (produceSoftDeleteFilter flt (Some [("id", i)])) ≫= where_)
      with (where_ (produceSoftDeleteFilter flt (Some [("id", i)]))).
    rewrite Hs, drop_0.
    rewrite (filter_ext _ (λ e, MemStore.hasId i e
                                && (MemStore.selects (flt ≫= where_) e && live e))).
    - rewrite filter_andb. fold (withId i (db w)). rewrite Hr. simpl.
      by destruct (MemStore.selects (flt ≫= where_) r && live r).
    - intros e. simpl.
      pose proof (holds_rewritten e (flt ≫= where_) [("id", i)]) as H.
      simpl in H |- *. rewrite H, andb_true_r. unfold MemStore.hasId.
      apply andb_comm. }
  destruct (MemStore.selects (flt ≫= where_) r && live r).
  - rewrite (findById_found i flt options w r (db w) Hprobe).
    unfold super. simpl. unfold MemStore.findById.
    rewrite find_head_filter. fold (withId i (db w)). rewrite Hr. simpl.
    by rewrite world_eta.
  - rewrite (findById_missing i flt options w (db w) Hprobe).
    by rewrite world_eta.
Qed.

Lemma findById_unique_row_witness :
  withId (VNum 2) (db Sample.w3) = [Sample.row 2 "pending" false]
  ∧ default 0 (Some Sample.wherePending ≫= skip) = 0
  ∧ SoftCrud.findById (VNum 2) (Some Sample.wherePending) None Sample.w3
    = (Ok (Sample.row 2 "pending" false), Sample.w3).
Proof.
  assert (withId (VNum 2) (db Sample.w3) = [Sample.row 2 "pending" false])
    as H by (vm_compute; reflexivity).
  split; [exact H|]. split; [reflexivity|].
  rewrite (findById_unique_row _ (VNum 2) _ (Some Sample.wherePending) None
             Sample.w3 H eq_refl).
  vm_compute. reflexivity.
Defined.

(** X14: [getUserId(options)] looks at the options only after the
    accessor: without an accessor it returns [undefined] even when the
    options carry a user; when the accessor yields a user the options are
    ignored; when the accessor yields none, the user of the options is
    taken, and [undefined] is returned if there is none either. *)
Theorem getUserId_precedence :
  ∀ (DB : Type) (S : CrudStore DB) (Ctx : Type) (this : Repository Ctx)
    (options : option Options) (w : World DB Ctx),
    (getCurrentUser this = None →
       SoftCrud.getUserId this options w = (Ok None, w))
    ∧ (∀ getter u,
         getCurrentUser this = Some getter → getter (ctx w) = Some u →
         SoftCrud.getUserId this options w
         = (Ok (if truthy (id u) then toString (id u) else None), w))
    ∧ (∀ getter u,
         getCurrentUser this = Some getter → getter (ctx w) = None →
         options ≫= currentUser = Some u →
         SoftCrud.getUserId this options w
         = (Ok (if truthy (id u) then toString (id u) else None), w))
    ∧ (∀ getter,
         getCurrentUser this = Some getter → getter (ctx w) = None →
         options ≫= currentUser = None →
         SoftCrud.getUserId this options w = (Ok None, w)).
Proof.
  intros DB S Ctx this options w. rewrite getUserId_run. unfold resolvedUser.
  split; [|split; [|split]].
  - by intros ->.
  - intros getter u -> ->. done.
  - intros getter u -> -> ->. done.
  - intros getter -> -> ->. done.
Qed.

Lemma getUserId_precedence_witness :
  getCurrentUser Sample.noAccessor = None
  ∧ SoftCrud.getUserId Sample.noAccessor (Some Sample.optsU1) Sample.wAnon
    = (Ok None, Sample.wAnon).
Proof.
  split; [reflexivity|].
  apply (proj1 (getUserId_precedence _ _ _ Sample.noAccessor
                  (Some Sample.optsU1) Sample.wAnon)).
  reflexivity.
Defined.
